(** * Crypto-bot: a shallow embedding of [main.py]

    The bot polls a spot price (Coinbase, then CoinGecko), looks up the price
    of "yesterday at the same hour" in a two-day history, and sends a message
    when the change reaches three percent.  Python floats are IEEE binary64
    numbers and are modelled by Rocq's primitive floats, so that [nan], the
    infinities and the signed zeros behave as they do in the program.
    Exceptions are kept where the program raises them: the lookup subtracts
    a time that carries a time zone from a column that carries none, which
    pandas refuses, so an analysis that has a history ends there. *)

From Stdlib Require Import Floats ZArith List String Ascii Bool Lia.
From Stdlib Require Import DecimalString.
Import ListNotations.

Set Warnings "-register-all".

Local Open Scope string_scope.
Local Open Scope list_scope.

(** ** Python values *)

Module Py.

(** The line feed, Python's ["\n"]. *)
Definition lf : ascii := ascii_of_nat 10.
Definition nl : string := String lf EmptyString.

(** [sep.join(parts)]. *)
Fixpoint join (sep : string) (parts : list string) : string :=
  match parts with
  | [] => EmptyString
  | [p] => p
  | p :: rest => p ++ sep ++ join sep rest
  end.

(** [s.split(sep)] for a one-character separator: never the empty list. *)
Fixpoint split (sep : ascii) (s : string) : list string :=
  match s with
  | EmptyString => [EmptyString]
  | String c rest =>
      if Ascii.eqb c sep then EmptyString :: split sep rest
      else match split sep rest with
           | [] => [String c EmptyString]
           | w :: ws => String c w :: ws
           end
  end.




(** Truth value of a string: [if l] holds for the non-empty ones. *)
Definition truthy (s : string) : bool :=
  match s with EmptyString => false | String _ _ => true end.

(** [s.upper()] on ASCII letters, which is all the coin tables hold. *)
Definition upper_ascii (c : ascii) : ascii :=
  let n := nat_of_ascii c in
  if (97 <=? n)%nat && (n <=? 122)%nat then ascii_of_nat (n - 32) else c.

Fixpoint upper (s : string) : string :=
  match s with
  | EmptyString => EmptyString
  | String c rest => String (upper_ascii c) (upper rest)
  end.

(** A parsed JSON document, as [resp.json()] returns it: [None], a [bool],
    an [int], a [float], a [str], a [list] or a [dict] (kept as an
    association list with distinct keys, looked up from the front). *)
Inductive json : Type :=
| JNull
| JBool (b : bool)
| JInt (z : Z)
| JFloat (f : float)
| JStr (s : string)
| JList (l : list json)
| JDict (d : list (string * json)).

Fixpoint assoc {A : Type} (k : string) (d : list (string * A)) : option A :=
  match d with
  | [] => None
  | (k', v) :: rest => if String.eqb k k' then Some v else assoc k rest
  end.

(** [d.get(k, default)] on a Python dict of the program's own tables. *)
Definition dict_get {A : Type} (d : list (string * A)) (k : string) (default : A) : A :=
  match assoc k d with Some v => v | None => default end.

(** Python operations raise; every handler of the program is a bare
    [except Exception], so an exception is just [None] here. *)
Definition is_substring (k s : string) : bool :=
  match index 0 k s with Some _ => true | None => false end.

Definition json_is_str (k : string) (v : json) : bool :=
  match v with JStr s => String.eqb s k | _ => false end.

(** [k in data] for a string [k]: key test on a dict, element test on a
    list, substring test on a str, [TypeError] on anything else. *)
Definition contains (k : string) (data : json) : option bool :=
  match data with
  | JDict d => Some (match assoc k d with Some _ => true | None => false end)
  | JList l => Some (existsb (json_is_str k) l)
  | JStr s => Some (is_substring k s)
  | _ => None
  end.

(** [data[k]] for a string [k]: the value of a dict ([KeyError] when
    absent), [TypeError] on anything else. *)
Definition getitem (data : json) (k : string) : option json :=
  match data with
  | JDict d => assoc k d
  | _ => None
  end.

(** [r.get(k, default)]: only a dict has the method ([AttributeError]). *)
Definition get (data : json) (k : string) (default : json) : option json :=
  match data with
  | JDict d => Some (dict_get d k default)
  | _ => None
  end.

(** [float(n)] for a Python int: correctly rounded to nearest-even,
    [OverflowError] when the result would not be finite. *)
Definition float_of_int (z : Z) : option float :=
  match binary_normalize prec emax z 0 false with
  | S754_infinity _ => None
  | sf => Some (SF2Prim sf)
  end.

Section Float.
(** [float(s)] for a str is the C library's decimal parser; it is taken
    as given ([None] when it raises [ValueError]). *)
Variable float_of_str : string -> option float.

(** [float(v)]. *)
Definition to_float (v : json) : option float :=
  match v with
  | JFloat f => Some f
  | JInt z => float_of_int z
  | JBool b => Some (if b then 1%float else 0%float)
  | JStr s => float_of_str s
  | _ => None
  end.
End Float.

(** [pd.notna(x)] on a float scalar. *)
Definition notna (x : float) : bool := negb (is_nan x).

End Py.

(** ** Fixed-point formatting: the format specs [.2f] and [,.2f] *)

Module Fmt.

Definition sign (s : bool) : string := if s then "-" else "".

(** Decimal digits of a natural number, ["0"] for zero. *)
Definition digits (n : N) : string := NilZero.string_of_uint (N.to_uint n).

(** The magnitude [m * 2^e] times one hundred, rounded to the nearest
    integer, ties to even: Python formats the exact binary value. *)
Definition hundredths (m : positive) (e : Z) : N :=
  match e with
  | Z0 => Npos m * 100
  | Zpos p => Npos m * 2 ^ Npos p * 100
  | Zneg p =>
      let num := (Npos m * 100)%N in
      let den := (2 ^ Npos p)%N in
      let q := (num / den)%N in
      let r := (num mod den)%N in
      match (2 * r ?= den)%N with
      | Lt => q
      | Gt => (q + 1)%N
      | Eq => if N.even q then q else (q + 1)%N
      end
  end%N.

(** Thousands separators, on the digits read from the right. *)
Fixpoint group3 (rev_digits : list ascii) : list ascii :=
  match rev_digits with
  | a :: b :: c :: (_ :: _) as rest => a :: b :: c :: ","%char :: group3 rest
  | short => short
  end.

Definition with_commas (ds : string) : string :=
  string_of_list_ascii (rev (group3 (rev (list_ascii_of_string ds)))).

Definition two_digits (n : N) : string :=
  if (n <? 10)%N then "0" ++ digits n else digits n.

(** [format(x, ".2f")] and, with [grouping], [format(x, ",.2f")]. *)
Definition fixed2 (grouping : bool) (x : float) : string :=
  match Prim2SF x with
  | S754_nan => "nan"
  | S754_infinity s => sign s ++ "inf"
  | S754_zero s => sign s ++ "0.00"
  | S754_finite s m e =>
      let h := hundredths m e in
      let whole := digits (h / 100) in
      sign s ++ (if grouping then with_commas whole else whole)
             ++ "." ++ two_digits (h mod 100)
  end.

End Fmt.

(** ** Wall-clock time and the price history *)

Module Clock.
Local Open Scope Z_scope.

(** A [datetime.datetime] in the zone of the bot.  All arithmetic the
    program does on it is between values of that one zone, hence on the
    wall clock.  Python's upper limit on the year is not modelled. *)
Record datetime : Type := {
  year : Z;
  month : Z;
  day : Z;
  hour : Z;
  minute : Z;
  second : Z;
  microsecond : Z
}.

Definition is_leap (y : Z) : bool :=
  (y mod 4 =? 0) && (negb (y mod 100 =? 0) || (y mod 400 =? 0)).

Definition days_in_month (y m : Z) : Z :=
  if m =? 2 then (if is_leap y then 29 else 28)
  else if (m =? 4) || (m =? 6) || (m =? 9) || (m =? 11) then 30
  else 31.

Definition valid (d : datetime) : Prop :=
  1 <= year d /\ 1 <= month d <= 12 /\ 1 <= day d <= days_in_month (year d) (month d)
  /\ 0 <= hour d < 24 /\ 0 <= minute d < 60 /\ 0 <= second d < 60
  /\ 0 <= microsecond d < 1000000.

Definition days_before_year (y : Z) : Z :=
  let p := y - 1 in p * 365 + p / 4 - p / 100 + p / 400.

Definition days_before_month (y m : Z) : Z :=
  fold_right Z.add 0
    (map (fun k => days_in_month y (Z.of_nat k)) (seq 1 (Z.to_nat (m - 1)))).

(** [date.toordinal()]: day 1 is January 1st of year 1. *)
Definition toordinal (d : datetime) : Z :=
  days_before_year (year d) + days_before_month (year d) (month d) + day d.

(** Microseconds since midnight. *)
Definition micros_of_day (d : datetime) : Z :=
  ((hour d * 60 + minute d) * 60 + second d) * 1000000 + microsecond d.

(** A [timedelta] is a number of microseconds; [a - b] on two datetimes. *)
Definition sub (a b : datetime) : Z :=
  (toordinal a - toordinal b) * 86400000000 + (micros_of_day a - micros_of_day b).

(** The day after, for carrying over midnight. *)
Definition next_day (d : datetime) : datetime :=
  if day d <? days_in_month (year d) (month d) then
    {| year := year d; month := month d; day := day d + 1;
       hour := hour d; minute := minute d; second := second d;
       microsecond := microsecond d |}
  else if month d <? 12 then
    {| year := year d; month := month d + 1; day := 1;
       hour := hour d; minute := minute d; second := second d;
       microsecond := microsecond d |}
  else
    {| year := year d + 1; month := 1; day := 1;
       hour := hour d; minute := minute d; second := second d;
       microsecond := microsecond d |}.

(** [d + datetime.timedelta(hours=1)]. *)
Definition add_hour (d : datetime) : datetime :=
  if hour d <? 23 then
    {| year := year d; month := month d; day := day d;
       hour := hour d + 1; minute := minute d; second := second d;
       microsecond := microsecond d |}
  else
    let n := next_day d in
    {| year := year n; month := month n; day := day n;
       hour := 0; minute := minute d; second := second d;
       microsecond := microsecond d |}.

(** [d.replace(minute=mi, second=s, microsecond=us)]. *)
Definition replace (d : datetime) (mi s us : Z) : datetime :=
  {| year := year d; month := month d; day := day d; hour := hour d;
     minute := mi; second := s; microsecond := us |}.

Definition two (n : Z) : string :=
  Fmt.two_digits (Z.to_N n).

(** [d.strftime("%Y-%m-%d %H:%M:%S")]. *)
Definition strftime (d : datetime) : string :=
  (Fmt.digits (Z.to_N (year d)) ++ "-" ++ two (month d) ++ "-" ++ two (day d)
   ++ " " ++ two (hour d) ++ ":" ++ two (minute d) ++ ":" ++ two (second d))%string.

(** The zone is America/Bogota, five hours behind UTC all year. *)
Definition UTC_OFFSET_SECONDS : Z := -18000.

(** The instant of a wall-clock time, in nanoseconds since the epoch
    (1970-01-01 has ordinal 719163): what [pd.Timestamp(d)] denotes. *)
Definition instant_ns (d : datetime) : Z :=
  (((toordinal d - 719163) * 86400000000 + micros_of_day d)
   - UTC_OFFSET_SECONDS * 1000000) * 1000.

End Clock.

(** One sample of the history frame: the columns [timestamp] (an instant in
    nanoseconds, after [pd.to_datetime(..., unit="ms")]) and [price]. *)
Module Frame.
Record row : Type := { timestamp : Z; price : float }.
End Frame.

(** ** Effects: HTTP requests, console output and Telegram calls *)

Module Effects.
Import Py.

(** The requests the program issues, with the parameters it builds. *)
Inductive request : Type :=
| CoinbaseTicker (symbol : string)
| CoinGeckoPrice (cg_id : string)
| CoinGeckoChart (cg_id : string) (days : nat)
| NewsApiEverything (q : string) (page_size : nat) (api_key : string)
| GNewsSearch (q : string) (max : nat) (token : string).

(** What [requests.get] does: it raises ([NoReply]: network error or
    timeout) or returns a response whose body is a JSON document or not. *)
Inductive reply : Type :=
| NoReply
| Body (doc : option json).

(** What the program does to the outside, in order. *)
Inductive event : Type :=
| Get (r : request)
| Print (text : string)
| SendMessage (text : string)
| SendPhoto.

(** The outside, as far as one call of the program reads it: the clock,
    the replies of the providers, the frame [get_history_coingecko] builds,
    the two news keys of the configuration, and whether the chart renders
    and the two Telegram calls raise ([Some text]) or not. *)
Record world : Type := {
  clock : Clock.datetime;
  http : request -> reply;
  history : string -> list Frame.row;
  NEWS_API_KEY : option string;
  GNEWS_API_KEY : option string;
  send_message_error : string -> option string;
  chart_renders : bool;
  send_photo_error : option string
}.

(** A computation reads the world, appends to the log of events and either
    returns a value or raises ([None]). *)
Definition M (A : Type) : Type := world -> list event -> option A * list event.

Definition ret {A : Type} (a : A) : M A := fun _ log => (Some a, log).

Definition raise {A : Type} : M A := fun _ log => (None, log).

Definition bind {A B : Type} (m : M A) (k : A -> M B) : M B :=
  fun w log =>
    match m w log with
    | (Some a, log') => k a w log'
    | (None, log') => (None, log')
    end.

(** [try: body / except Exception: handler]. *)
Definition try_except {A : Type} (body handler : M A) : M A :=
  fun w log =>
    match body w log with
    | (Some a, log') => (Some a, log')
    | (None, log') => handler w log'
    end.

Definition lift {A : Type} (o : option A) : M A :=
  match o with Some a => ret a | None => raise end.

Definition emit (e : event) : M unit := fun _ log => (Some tt, log ++ [e]).

Definition ask : M world := fun w log => (Some w, log).

(** [requests.get(url, ...)]: the call is logged, then it raises or returns
    the response (its body). *)
Definition requests_get (r : request) : M (option json) :=
  fun w log =>
    match http w r with
    | NoReply => (None, log ++ [Get r])
    | Body doc => (Some doc, log ++ [Get r])
    end.

(** [resp.json()]. *)
Definition json_of (resp : option json) : M json := lift resp.

(** Running a computation from an empty log. *)
Definition run {A : Type} (m : M A) (w : world) : option A * list event := m w [].

End Effects.

Declare Scope py_scope.
Delimit Scope py_scope with py.
Notation "x <- m ;; k" := (Effects.bind m (fun x => k))
  (at level 61, m at next level, right associativity) : py_scope.
Notation "m ;;; k" := (Effects.bind m (fun _ => k))
  (at level 61, right associativity) : py_scope.

(** ** The current price: Coinbase first, CoinGecko as the fallback *)

Module PriceSource.
Import Py Effects.
Local Open Scope py_scope.

Definition COINBASE_SYMBOL : list (string * string) :=
  [("bitcoin", "BTC"); ("ethereum", "ETH"); ("ripple", "XRP")].

Definition COINGECKO_ID : list (string * string) :=
  [("bitcoin", "bitcoin"); ("ethereum", "ethereum"); ("ripple", "ripple")].

(** [safe_json(resp)]: the document, or [{}] when the body is not JSON. *)
Definition safe_json (resp : option json) : json :=
  match resp with Some doc => doc | None => JDict [] end.

Section Library.
Variable float_of_str : string -> option float.

(** The body of the first [try] of [get_coinbase_price]: [Some p] when it
    returns [p], [None] when it falls out of the [if]. *)
Definition coinbase_attempt (symbol : string) : M (option float) :=
  r <- requests_get (CoinbaseTicker symbol) ;;
  let data := safe_json r in
  present <- lift (contains "price" data) ;;
  if present : bool then
    v <- lift (getitem data "price") ;;
    p <- lift (to_float float_of_str v) ;;
    ret (Some p)
  else ret None.

(** The body of the second [try]. *)
Definition coingecko_attempt (coin_id : string) : M (option float) :=
  let cg_id := dict_get COINGECKO_ID coin_id coin_id in
  resp <- requests_get (CoinGeckoPrice cg_id) ;;
  r2 <- json_of resp ;;
  entry <- lift (getitem r2 cg_id) ;;
  usd <- lift (getitem entry "usd") ;;
  p <- lift (to_float float_of_str usd) ;;
  ret (Some p).

Definition get_coinbase_price (coin_id : string) : M (option float) :=
  let symbol := upper (dict_get COINBASE_SYMBOL coin_id coin_id) in
  first <- try_except (coinbase_attempt symbol) (ret None) ;;
  match first with
  | Some p => ret (Some p)
  | None => try_except (coingecko_attempt coin_id) (ret None)
  end.

(** A provider answers with a price when its reply carries the field and
    the field converts to a float; it fails when it answers with none. *)
Definition coinbase_returns (rep : reply) (p : float) : Prop :=
  exists doc v,
    rep = Body doc
    /\ contains "price" (safe_json doc) = Some true
    /\ getitem (safe_json doc) "price" = Some v
    /\ to_float float_of_str v = Some p.

Definition coingecko_returns (cg_id : string) (rep : reply) (p : float) : Prop :=
  exists r2 entry usd,
    rep = Body (Some r2)
    /\ getitem r2 cg_id = Some entry
    /\ getitem entry "usd" = Some usd
    /\ to_float float_of_str usd = Some p.

Definition fails (returns : float -> Prop) : Prop := forall p, ~ returns p.

End Library.
End PriceSource.

(** ** The news digest *)

Module News.
Import Py Effects.
Local Open Scope py_scope.
Local Open Scope string_scope.

Definition HEADER : string := "📰 *Noticias relevantes:*" ++ nl.
Definition NO_NEWS : string := "📰 No hay noticias relevantes disponibles.".

(** A configured key is a non-empty string ([if NEWS_API_KEY:]). *)
Definition configured (key : option string) : bool :=
  match key with Some k => truthy k | None => false end.

Definition key_text (key : option string) : string :=
  match key with Some k => k | None => "" end.

Definition int_text (z : Z) : string :=
  match z with
  | Zneg p => "-" ++ Fmt.digits (Npos p)
  | _ => Fmt.digits (Z.to_N z)
  end.

Section Library.
(** [str(v)] of a float, a list or a dict inside an f-string is the
    interpreter's [repr]; it is taken as given. *)
Variable repr : json -> string.

(** The text an f-string field [{v}] produces. *)
Definition str (v : json) : string :=
  match v with
  | JStr s => s
  | JNull => "None"
  | JBool true => "True"
  | JBool false => "False"
  | JInt z => int_text z
  | _ => repr v
  end.

(** One entry of the list comprehension:
    [f"• {a.get('title')} ({a.get('source',{}).get('name')})\n  {a.get('url')}"]. *)
Definition article_line (a : json) : option string :=
  match get a "title" JNull with
  | None => None
  | Some title =>
      match get a "source" (JDict []) with
      | None => None
      | Some source =>
          match get source "name" JNull with
          | None => None
          | Some name =>
              match get a "url" JNull with
              | None => None
              | Some url =>
                  Some ("• " ++ str title ++ " (" ++ str name ++ ")" ++ nl
                        ++ "  " ++ str url)
              end
          end
      end
  end.

(** All entries, or the first exception. *)
Fixpoint article_lines (articles : list json) : option (list string) :=
  match articles with
  | [] => Some []
  | a :: rest =>
      match article_line a with
      | None => None
      | Some line =>
          match article_lines rest with
          | None => None
          | Some lines => Some (line :: lines)
          end
      end
  end.

(** [r.get("articles", [])[:max_articles]] followed by the conditional
    [return]: the same two lines in both branches of the source.  A list is
    cut; a str is cut too, and a non-empty one then fails on [a.get]; nothing
    else can be sliced. *)
Definition digest (max_articles : nat) (r : json) : option string :=
  match get r "articles" (JList []) with
  | None => None
  | Some (JList l) =>
      match firstn max_articles l with
      | [] => Some ""
      | articles =>
          match article_lines articles with
          | None => None
          | Some lines => Some (HEADER ++ join nl lines)
          end
      end
  | Some (JStr s) =>
      match substring 0 max_articles s with
      | EmptyString => Some ""
      | _ => None
      end
  | Some _ => None
  end.

(** One guarded [try]: [Some d] when it returns [d], [None] when the key is
    not configured or the [except] clause passes. *)
Definition attempt (key : option string) (req : request) (max_articles : nat)
  : M (option string) :=
  if configured key then
    try_except
      (resp <- requests_get req ;;
       r <- json_of resp ;;
       d <- lift (digest max_articles r) ;;
       ret (Some d))
      (ret None)
  else ret None.

Definition get_news_for_symbol (symbol : string) (max_articles : nat) : M string :=
  w <- ask ;;
  first <- attempt (NEWS_API_KEY w)
             (NewsApiEverything (symbol ++ " OR crypto OR cryptocurrency OR blockchain")
                                max_articles (key_text (NEWS_API_KEY w)))
             max_articles ;;
  match first with
  | Some d => ret d
  | None =>
      second <- attempt (GNEWS_API_KEY w)
                  (GNewsSearch symbol max_articles (key_text (GNEWS_API_KEY w)))
                  max_articles ;;
      match second with
      | Some d => ret d
      | None => ret NO_NEWS
      end
  end.

End Library.
End News.

(** ** Indicators: rolling means and the relative-strength index *)

Module Indicators.
Local Open Scope float_scope.

(** [series.diff()]: no value at the first position, then the step from the
    previous sample. *)
Fixpoint diff_from (prev : float) (xs : list float) : list float :=
  match xs with
  | [] => []
  | x :: rest => (x - prev) :: diff_from x rest
  end.

Definition diff (xs : list float) : list float :=
  match xs with
  | [] => []
  | x :: rest => nan :: diff_from x rest
  end.

(** [s.clip(lower=0)] and [s.clip(upper=0)]: a missing value stays, a value
    on the right side of the bound stays, anything else becomes the bound. *)
Definition clip_lower0 (x : float) : float :=
  if is_nan x || (0 <=? x) then x else 0.

Definition clip_upper0 (x : float) : float :=
  if is_nan x || (x <=? 0) then x else 0.

(** The window of [period] samples ending at position [i] (shorter at the
    start of the series). *)
Definition window (period i : nat) (xs : list float) : list float :=
  skipn (i + 1 - period) (firstn (i + 1) xs).

Section Library.
(** The mean pandas computes over a full window of numbers: a compensated
    running sum divided by the count.  Its rounding is not the program's
    affair and it is taken as given. *)
Variable window_mean : list float -> float.

(** [s.rolling(period).mean()]: [min_periods] is the window size, and both
    [nan] and the infinities count as missing, so a value is produced only
    over [period] finite samples. *)
Definition rolling_mean_at (period : nat) (xs : list float) (i : nat) : float :=
  let w := window period i xs in
  if (List.length w =? period)%nat && forallb is_finite w then window_mean w else nan.

Definition rolling_mean (period : nat) (xs : list float) : list float :=
  map (rolling_mean_at period xs) (seq 0 (List.length xs)).

Definition rsi_of (roll_up roll_down : float) : float :=
  let rs := roll_up / roll_down in
  100 - (100 / (1 + rs)).

Definition up_moves (series : list float) : list float :=
  map clip_lower0 (diff series).

Definition down_moves (series : list float) : list float :=
  map (fun d => - clip_upper0 d) (diff series).

Definition calc_rsi (series : list float) (period : nat) : list float :=
  let up := up_moves series in
  let down := down_moves series in
  let roll_up := rolling_mean period up in
  let roll_down := rolling_mean period down in
  map (fun ud => rsi_of (fst ud) (snd ud)) (combine roll_up roll_down).

End Library.

(** The plain left-to-right mean, one possible [window_mean]. *)
Definition naive_mean (w : list float) : float :=
  fold_left add w 0 / of_uint63 (Uint63.of_Z (Z.of_nat (List.length w))).

End Indicators.

(** ** The reference point: the sample closest to a target instant *)

Module Locator.
Local Open Scope Z_scope.

(** Whether a pandas datetime value carries a time zone. *)
Inductive zone : Type := Naive | Aware.

Definition same_zone (a b : zone) : bool :=
  match a, b with
  | Naive, Naive | Aware, Aware => true
  | _, _ => false
  end.

(** The column [pd.to_datetime(df["timestamp"], unit="ms")] builds carries
    none.  [now] is [datetime.datetime.now(TZ)] and carries one, and so do
    [now - datetime.timedelta(days=1)] and the [pd.Timestamp] made of it. *)
Definition COLUMN_ZONE : zone := Naive.
Definition NOW_ZONE : zone := Aware.

(** [column - stamp]: pandas subtracts a stamp from a datetime column only
    when both carry a time zone or neither does, and raises [TypeError]
    otherwise, whatever the entries; the difference is that of the instants,
    in nanoseconds. *)
Definition subtract (column_zone : zone) (column : list Z)
  (stamp_zone : zone) (stamp : Z) : option (list Z) :=
  if same_zone column_zone stamp_zone
  then Some (map (fun t => t - stamp) column)
  else None.

(** [(df["timestamp"] - pd.Timestamp(target)).abs()] *)
Definition distances (df : list Frame.row) (target : Z) : option (list Z) :=
  option_map (map Z.abs)
    (subtract COLUMN_ZONE (map Frame.timestamp df) NOW_ZONE target).

(** [df.iloc[positions]]: [IndexError] on a position out of bounds. *)
Fixpoint iloc (df : list Frame.row) (positions : list nat) : option (list Frame.row) :=
  match positions with
  | [] => Some []
  | i :: rest =>
      match nth_error df i, iloc df rest with
      | Some r, Some rs => Some (r :: rs)
      | _, _ => None
      end
  end.

Section Library.
(** [Series.argsort()], the position sort of the library. *)
Variable argsort : list Z -> list nat.

(** [df.iloc[(df["timestamp"] - pd.Timestamp(target)).abs().argsort()[:1]]] *)
Definition closest (df : list Frame.row) (target : Z) : option (list Frame.row) :=
  match distances df target with
  | None => None
  | Some keys => iloc df (firstn 1 (argsort keys))
  end.

(** [df_prev["price"].values[0] if not df_prev.empty else None] *)
Definition prev_price_of (df_prev : list Frame.row) : option float :=
  match df_prev with
  | [] => None
  | r :: _ => Some (Frame.price r)
  end.

End Library.
End Locator.

(** ** The analysis of one coin *)

Module Analysis.
Import Py Effects.
Local Open Scope py_scope.
Local Open Scope string_scope.

(** [(price - prev_price) / prev_price * 100].  [prev_price] comes out of a
    float64 column, so the arithmetic is the IEEE one: dividing by a zero
    gives an infinity or [nan], it does not raise. *)
Definition change_pct (price prev_price : float) : float :=
  ((price - prev_price) / prev_price * 100)%float.

(** The guard of the early [return]: [abs(change_pct) < 3]. *)
Definition below_threshold (change : float) : bool :=
  (abs change <? 3)%float.

(** The ten entries of [lines], before the empty ones are dropped. *)
Definition header_line (label : string) : string :=
  "📊 *ANÁLISIS EDUCATIVO — " ++ label ++ "*".

Definition time_line (timestamp_str : string) : string :=
  "⏱ " ++ timestamp_str ++ " (hora Colombia)".

Definition price_line (price : float) : string :=
  "💵 *Precio actual:* $" ++ Fmt.fixed2 true price.

Definition sma_text (price sma_val : float) : string :=
  "📈 Precio " ++ (if (sma_val <? price)%float then "por encima" else "por debajo")
  ++ " de SMA20 ($" ++ Fmt.fixed2 true sma_val ++ ")".

Definition sma_line (price sma_val : float) : string :=
  if notna sma_val then sma_text price sma_val else "".

Definition rsi_text (rsi_val : float) : string :=
  "📉 RSI14: " ++ Fmt.fixed2 false rsi_val.

Definition rsi_line (rsi_val : float) : string :=
  if notna rsi_val then rsi_text rsi_val else "".

Definition change_line (change : float) : string :=
  "📊 Cambio respecto ayer misma hora: " ++ Fmt.fixed2 false change ++ "%".

Definition DISCLAIMER : string :=
  "_Este análisis es educativo, no es asesoramiento financiero._".

Definition lines (label timestamp_str : string) (price sma_val rsi_val change : float)
  (news : string) : list string :=
  [ header_line label;
    time_line timestamp_str;
    price_line price;
    sma_line price sma_val;
    rsi_line rsi_val;
    change_line change;
    "";
    news;
    "";
    DISCLAIMER ].

(** ["\n".join([l for l in lines if l])] *)
Definition message_of (ls : list string) : string :=
  join nl (filter truthy ls).

(** The [try] block that delivers: the text, then the chart when it
    rendered; the first call that raises ends the block in the handler. *)
Definition deliver (label message : string) (change : float) : M unit :=
  w <- ask ;;
  emit (SendMessage message) ;;;
  match send_message_error w message with
  | Some e => emit (Print ("Error enviando " ++ label ++ ": " ++ e))
  | None =>
      let sent := Print ("✅ " ++ label ++ " enviado, cambio "
                         ++ Fmt.fixed2 false change ++ "%") in
      if chart_renders w then
        emit SendPhoto ;;;
        match send_photo_error w with
        | Some e => emit (Print ("Error enviando " ++ label ++ ": " ++ e))
        | None => emit sent
        end
      else emit sent
  end.

Section Library.
Variable float_of_str : string -> option float.
Variable repr : json -> string.
Variable argsort : list Z -> list nat.
Variable window_mean : list float -> float.

(** The last entry of a column, [col.iloc[-1]], on a frame with rows. *)
Definition last_of (col : list float) : float := last col nan.

Definition analyze_coin (coin_id : string) : M unit :=
  let label := upper (dict_get PriceSource.COINBASE_SYMBOL coin_id coin_id) in
  w <- ask ;;
  let now := clock w in
  let timestamp_str := Clock.strftime now in
  price <- PriceSource.get_coinbase_price float_of_str coin_id ;;
  match price with
  | None => emit (Print (label ++ ": precio no disponible"))
  | Some price =>
      emit (Get (CoinGeckoChart
                   (dict_get PriceSource.COINGECKO_ID coin_id coin_id) 2)) ;;;
      let df := history w coin_id in
      match df with
      | [] => emit (Print (label ++ ": historial no disponible"))
      | _ :: _ =>
          let yesterday_same_hour := (Clock.instant_ns now - 86400000000000)%Z in
          df_prev <- lift (Locator.closest argsort df yesterday_same_hour) ;;
          match Locator.prev_price_of df_prev with
          | None => emit (Print (label ++ ": precio de ayer no disponible"))
          | Some prev_price =>
              let change := change_pct price prev_price in
              if below_threshold change then
                emit (Print (label ++ ": cambio " ++ Fmt.fixed2 false change
                             ++ "% < 3%, no se envía mensaje"))
              else
                let prices := map Frame.price df in
                let sma_val := last_of (Indicators.rolling_mean window_mean 20 prices) in
                let rsi_val := last_of (Indicators.calc_rsi window_mean prices 14) in
                news <- News.get_news_for_symbol repr label 3 ;;
                let message :=
                  message_of (lines label timestamp_str price sma_val rsi_val
                                    change news) in
                deliver label message change
          end
      end
  end.

End Library.
End Analysis.

(** ** The hourly loop *)

Module Scheduler.
Import Clock.
Local Open Scope Z_scope.

(** The window in which a cycle analyses: 06:00 to 21:30. *)
Definition active (now : datetime) : bool :=
  ((6 <=? hour now) && (hour now <? 21))
  || ((hour now =? 21) && (minute now <=? 30)).

(** [(now + timedelta(hours=1)).replace(minute=0, second=5, microsecond=0)] *)
Definition next_run (now : datetime) : datetime :=
  replace (add_hour now) 0 5 0.

(** [td.total_seconds()]: the microseconds of the timedelta divided by
    [10**6], both exactly representable for any wait the loop computes. *)
Definition float_of_micros (us : Z) : float :=
  if us <? 0 then (- of_uint63 (Uint63.of_Z (- us)))%float
  else of_uint63 (Uint63.of_Z us).

Definition total_seconds (td : Z) : float :=
  (float_of_micros td / 1000000)%float.

(** Python's [max(a, 60)]: the second argument wins only when it is
    strictly greater. *)
Definition max60 (a : float) : float :=
  if (a <? 60)%float then 60%float else a.

(** [max((next_run - now).total_seconds(), 60)] *)
Definition wait_seconds (now : datetime) : float :=
  max60 (total_seconds (sub (next_run now) now)).

Definition COINS : list string := ["bitcoin"; "ethereum"; "ripple"].

(** The text the loop sends once when it starts. *)
Definition STARTED : string :=
  "🤖 Crypto Bot iniciado (educativo). Notificaciones solo si cambio ≥3% vs ayer misma hora.".

(** The [try] before the loop: the text is handed to [bot.send_message] and
    a failure is passed over. *)
Definition announce : Effects.M unit :=
  Effects.emit (Effects.SendMessage STARTED).

Section Library.
Variable float_of_str : string -> option float.
Variable repr : Py.json -> string.
Variable argsort : list Z -> list nat.
Variable window_mean : list float -> float.

Local Open Scope py_scope.

Fixpoint analyze_all (coins : list string) : Effects.M unit :=
  match coins with
  | [] => Effects.ret tt
  | coin :: rest =>
      Analysis.analyze_coin float_of_str repr argsort window_mean coin ;;;
      analyze_all rest
  end.

(** One pass of the [while True] body: the analyses when the window is open,
    then the number of seconds handed to [asyncio.sleep]. *)
Definition cycle : Effects.M float :=
  w <- Effects.ask ;;
  let now := Effects.clock w in
  (if active now then analyze_all COINS else Effects.ret tt) ;;;
  Effects.ret (wait_seconds now).

End Library.
End Scheduler.

(** ** The order book *)

Module OrderBook.
Import Py Effects.

Definition quote : Type := (float * float * float * float)%type.

Definition SEND_ORDERBOOK_FALLBACK_ZERO : quote := (0, 0, 0, 0)%float.

(** A Python str is indexed by character; the strings here are UTF-8, where
    a character is a leading byte with the continuation bytes (10xxxxxx)
    that follow it. *)
Definition is_continuation (c : ascii) : bool :=
  let n := nat_of_ascii c in (128 <=? n)%nat && (n <? 192)%nat.

Fixpoint characters (s : string) : list string :=
  match s with
  | EmptyString => []
  | String c rest =>
      match characters rest with
      | [] => [String c EmptyString]
      | next :: others =>
          match rest with
          | String c' _ =>
              if is_continuation c' then String c next :: others
              else String c EmptyString :: next :: others
          | EmptyString => [String c EmptyString]
          end
      end
  end.

(** [x[i]] for an index [i >= 0]: the entry of a list or the character of a
    str ([IndexError] past the end), [KeyError] on a dict (its keys are
    strings), [TypeError] on anything else. *)
Definition item (x : json) (i : nat) : option json :=
  match x with
  | JList l => nth_error l i
  | JStr s => option_map JStr (nth_error (characters s) i)
  | _ => None
  end.

Section Library.
Variable float_of_str : string -> option float.
(** What [requests.get] does on the level-1 book of a product: the one
    request of the function, by the symbol in its URL. *)
Variable book : string -> reply.

(** [float(data[side][0][i])] *)
Definition entry (data : json) (side : string) (i : nat) : option float :=
  match getitem data side with
  | None => None
  | Some levels =>
      match item levels 0 with
      | None => None
      | Some best =>
          match item best i with
          | None => None
          | Some v => to_float float_of_str v
          end
      end
  end.

(** The four assignments of the [try] body, in order. *)
Definition read_book (data : json) : option quote :=
  match entry data "bids" 0 with
  | None => None
  | Some bid_price =>
      match entry data "bids" 1 with
      | None => None
      | Some bid_qty =>
          match entry data "asks" 0 with
          | None => None
          | Some ask_price =>
              match entry data "asks" 1 with
              | None => None
              | Some ask_qty => Some (bid_price, bid_qty, ask_price, ask_qty)
              end
          end
      end
  end.

Definition get_coinbase_orderbook (coin_id : string) : quote :=
  let symbol := upper (dict_get PriceSource.COINBASE_SYMBOL coin_id coin_id) in
  match book symbol with
  | NoReply => SEND_ORDERBOOK_FALLBACK_ZERO
  | Body resp =>
      match read_book (PriceSource.safe_json resp) with
      | Some q => q
      | None => SEND_ORDERBOOK_FALLBACK_ZERO
      end
  end.

End Library.
End OrderBook.


(** * Facts *)

(** ** IEEE comparisons *)

Section IEEE.
Local Open Scope float_scope.

Lemma SFcompare_swap (x y : spec_float) :
  SFcompare y x = option_map CompOpp (SFcompare x y).
Proof.
  destruct x as [sx | sx | | sx mx ex], y as [sy | sy | | sy my ey]; simpl;
    try reflexivity;
    try (destruct sx; reflexivity);
    try (destruct sy; reflexivity);
    try (destruct sx, sy; reflexivity).
  destruct sx, sy; simpl; try reflexivity;
    rewrite (Z.compare_antisym ex ey);
    destruct (ex ?= ey)%Z eqn:E; simpl; try reflexivity;
    rewrite !Pos.compare_cont_spec; simpl;
    rewrite (Pos.compare_antisym mx my);
    destruct (mx ?= my)%positive; reflexivity.
Qed.

Lemma SFcompare_nan (x y : spec_float) :
  SFcompare x y = None <-> x = S754_nan \/ y = S754_nan.
Proof.
  destruct x as [sx | sx | | sx mx ex], y as [sy | sy | | sy my ey]; simpl;
    split; intros H; try discriminate; auto;
    try (destruct H; discriminate).
Qed.

Lemma is_nan_spec (x : float) : is_nan x = true <-> Prim2SF x = S754_nan.
Proof.
  unfold is_nan. rewrite FloatAxioms.eqb_spec. unfold SFeqb.
  destruct (SFcompare (Prim2SF x) (Prim2SF x)) as [c |] eqn:E.
  - assert (Hc : c = Eq).
    { pose proof (SFcompare_swap (Prim2SF x) (Prim2SF x)) as S.
      rewrite E in S. simpl in S. destruct c; try discriminate; reflexivity. }
    subst c. simpl. split; [discriminate |].
    intros N. rewrite N in E. discriminate.
  - simpl. apply SFcompare_nan in E. split; [tauto | reflexivity].
Qed.

Lemma is_nan_false (x : float) : is_nan x = false <-> Prim2SF x <> S754_nan.
Proof.
  rewrite <- is_nan_spec. destruct (is_nan x); split; congruence.
Qed.

(** On numbers, "not below" and "at least" are the same test. *)
Lemma not_ltb_leb (x y : float) :
  is_nan x = false -> is_nan y = false ->
  ((x <? y) = false <-> (y <=? x) = true).
Proof.
  rewrite !is_nan_false. intros Hx Hy.
  rewrite ltb_spec, leb_spec. unfold SFltb, SFleb.
  rewrite (SFcompare_swap (Prim2SF x) (Prim2SF y)).
  destruct (SFcompare (Prim2SF x) (Prim2SF y)) as [c |] eqn:E.
  - destruct c; simpl; split; congruence.
  - apply SFcompare_nan in E. tauto.
Qed.

(** A [nan] is neither below nor at least anything. *)
Lemma nan_ltb (x y : float) : is_nan x = true -> (x <? y) = false.
Proof.
  rewrite is_nan_spec. intros H. rewrite ltb_spec, H. reflexivity.
Qed.

Lemma nan_leb_r (x y : float) : is_nan x = true -> (y <=? x) = false.
Proof.
  rewrite is_nan_spec. intros H. rewrite leb_spec, H. unfold SFleb.
  destruct (Prim2SF y); reflexivity.
Qed.

Lemma abs_nan (x : float) : is_nan (abs x) = is_nan x.
Proof.
  apply eq_true_iff_eq. rewrite !is_nan_spec, abs_spec.
  destruct (Prim2SF x); simpl; split; congruence.
Qed.

End IEEE.

(** ** The current price *)

Section PriceFacts.
Import Py Effects PriceSource.
Variable float_of_str : string -> option float.

Definition symbol_of (coin_id : string) : string :=
  upper (dict_get COINBASE_SYMBOL coin_id coin_id).

Definition cg_id_of (coin_id : string) : string :=
  dict_get COINGECKO_ID coin_id coin_id.

(** What the first [try] leaves behind: one logged request, and the price
    exactly when Coinbase answers with one. *)
Lemma coinbase_attempt_run (symbol : string) (w : world) (log : list event) :
  exists out,
    try_except (coinbase_attempt float_of_str symbol) (ret None) w log
    = (Some out, log ++ [Get (CoinbaseTicker symbol)])
    /\ (forall p, out = Some p
                  <-> coinbase_returns float_of_str (http w (CoinbaseTicker symbol)) p).
Proof.
  unfold try_except, coinbase_attempt, bind, requests_get, coinbase_returns.
  destruct (http w (CoinbaseTicker symbol)) as [| doc] eqn:R; simpl.
  - exists None. split; [reflexivity |]. intros p. split; [discriminate |].
    intros (d & v & H & _). discriminate.
  - destruct (contains "price" (safe_json doc)) as [[|] |] eqn:C; simpl.
    + destruct (getitem (safe_json doc) "price") as [v |] eqn:G; simpl.
      * destruct (to_float float_of_str v) as [q |] eqn:F; simpl.
        -- exists (Some q). split; [reflexivity |]. intros p. split.
           ++ intros [= ->]. exists doc, v. auto.
           ++ intros (d & v' & [= <-] & _ & G' & F'). congruence.
        -- exists None. split; [reflexivity |]. intros p. split; [discriminate |].
           intros (d & v' & [= <-] & _ & G' & F'). congruence.
      * exists None. split; [reflexivity |]. intros p. split; [discriminate |].
        intros (d & v' & [= <-] & _ & G' & _). congruence.
    + exists None. split; [reflexivity |]. intros p. split; [discriminate |].
      intros (d & v' & [= <-] & C' & _). congruence.
    + exists None. split; [reflexivity |]. intros p. split; [discriminate |].
      intros (d & v' & [= <-] & C' & _). congruence.
Qed.

Lemma coingecko_attempt_run (coin_id : string) (w : world) (log : list event) :
  exists out,
    try_except (coingecko_attempt float_of_str coin_id) (ret None) w log
    = (Some out, log ++ [Get (CoinGeckoPrice (cg_id_of coin_id))])
    /\ (forall p, out = Some p
                  <-> coingecko_returns float_of_str (cg_id_of coin_id)
                        (http w (CoinGeckoPrice (cg_id_of coin_id))) p).
Proof.
  unfold try_except, coingecko_attempt, bind, requests_get, json_of,
    coingecko_returns, cg_id_of.
  set (cg := dict_get COINGECKO_ID coin_id coin_id).
  destruct (http w (CoinGeckoPrice cg)) as [| [r2 |]] eqn:R; simpl.
  - exists None. split; [reflexivity |]. intros p. split; [discriminate |].
    intros (a & b & c & H & _). discriminate.
  - destruct (getitem r2 cg) as [entry |] eqn:G1; simpl.
    + destruct (getitem entry "usd") as [usd |] eqn:G2; simpl.
      * destruct (to_float float_of_str usd) as [q |] eqn:F; simpl.
        -- exists (Some q). split; [reflexivity |]. intros p. split.
           ++ intros [= ->]. exists r2, entry, usd. auto.
           ++ intros (a & b & c & [= <-] & H1 & H2 & H3). congruence.
        -- exists None. split; [reflexivity |]. intros p. split; [discriminate |].
           intros (a & b & c & [= <-] & H1 & H2 & H3). congruence.
      * exists None. split; [reflexivity |]. intros p. split; [discriminate |].
        intros (a & b & c & [= <-] & H1 & H2 & H3). congruence.
    + exists None. split; [reflexivity |]. intros p. split; [discriminate |].
      intros (a & b & c & [= <-] & H1 & H2 & H3). congruence.
  - exists None. split; [reflexivity |]. intros p. split; [discriminate |].
    intros (a & b & c & H & _). discriminate.
Qed.

(** C4: the primary provider is asked first; the secondary is asked only
    when the primary answered with no price (it did not reply, its body is
    malformed or lacks the field); a price of the primary ends the fetch
    with no further request; and no price is reported exactly when both
    providers fail. *)
Theorem price_fallback_order (coin_id : string) (w : world) :
  let primary := Get (CoinbaseTicker (symbol_of coin_id)) in
  let secondary := Get (CoinGeckoPrice (cg_id_of coin_id)) in
  let cb := coinbase_returns float_of_str (http w (CoinbaseTicker (symbol_of coin_id))) in
  let cg := coingecko_returns float_of_str (cg_id_of coin_id)
              (http w (CoinGeckoPrice (cg_id_of coin_id))) in
  exists out log,
    run (get_coinbase_price float_of_str coin_id) w = (Some out, log)
    /\ hd_error log = Some primary
    /\ (In secondary log -> fails cb)
    /\ (forall p, cb p -> out = Some p /\ log = [primary])
    /\ (out = None <-> fails cb /\ fails cg).
Proof.
  intros primary secondary cb cg.
  unfold run, get_coinbase_price, bind.
  fold (symbol_of coin_id).
  destruct (coinbase_attempt_run (symbol_of coin_id) w []) as (o1 & E1 & S1).
  rewrite E1. cbn [app]. cbv beta iota.
  destruct o1 as [p1 |].
  - exists (Some p1), [primary]. unfold ret.
    assert (Hcb : cb p1) by (apply S1; reflexivity).
    split; [reflexivity |]. split; [reflexivity |]. split; [| split; [| split]].
    + intros [H | []]. discriminate H.
    + intros p Hp. apply S1 in Hp. split; [congruence | reflexivity].
    + intros H. discriminate H.
    + intros [F _]. exfalso. exact (F p1 Hcb).
  - destruct (coingecko_attempt_run coin_id w [primary]) as (o2 & E2 & S2).
    fold primary secondary in E2. fold primary. rewrite E2. cbn [app].
    assert (Fcb : fails cb).
    { intros p Hp. apply S1 in Hp. discriminate Hp. }
    exists o2, [primary; secondary].
    split; [reflexivity |]. split; [reflexivity |]. split; [| split; [| split]].
    + intros _. exact Fcb.
    + intros p Hp. exfalso. exact (Fcb p Hp).
    + intros ->. split; [exact Fcb |]. intros p Hp. apply S2 in Hp. discriminate Hp.
    + intros [_ F]. destruct o2 as [p2 |]; [| reflexivity].
      exfalso. apply (F p2). apply S2. reflexivity.
Qed.

(** The three named ways to fail are failures. *)
Lemma coinbase_failure_modes (rep : reply) :
  rep = NoReply
  \/ (exists doc, rep = Body doc /\ contains "price" (safe_json doc) <> Some true)
  \/ (exists doc v, rep = Body doc /\ getitem (safe_json doc) "price" = Some v
                    /\ to_float float_of_str v = None) ->
  fails (coinbase_returns float_of_str rep).
Proof.
  intros [H | [(doc & H & C) | (doc & v & H & G & F)]] p (d & v' & R & C' & G' & F');
    subst rep; try discriminate; injection R as <-; congruence.
Qed.

(** C5, as amended: a returned price is the float the primary's ["price"]
    field converts to or, when the primary failed, the one the secondary's
    ["usd"] field converts to; nothing is said about its sign. *)
Theorem returned_price_is_parsed_field (coin_id : string) (w : world)
  (p : float) (log : list event) :
  run (get_coinbase_price float_of_str coin_id) w = (Some (Some p), log) ->
  let cb := coinbase_returns float_of_str (http w (CoinbaseTicker (symbol_of coin_id))) in
  let cg := coingecko_returns float_of_str (cg_id_of coin_id)
              (http w (CoinGeckoPrice (cg_id_of coin_id))) in
  cb p \/ (fails cb /\ cg p).
Proof.
  intros H cb cg.
  unfold run, get_coinbase_price, bind in H.
  fold (symbol_of coin_id) in H.
  destruct (coinbase_attempt_run (symbol_of coin_id) w []) as (o1 & E1 & S1).
  rewrite E1 in H. cbn [app] in H. cbv beta iota in H.
  destruct o1 as [p1 |].
  - unfold ret in H. injection H as -> _. left. apply S1. reflexivity.
  - destruct (coingecko_attempt_run coin_id w [Get (CoinbaseTicker (symbol_of coin_id))])
      as (o2 & E2 & S2).
    rewrite E2 in H. injection H as -> _. right. split.
    + intros q Hq. apply S1 in Hq. discriminate Hq.
    + apply S2. reflexivity.
Qed.

End PriceFacts.

(** *** Worlds to run the fetch in *)

Section PriceWorlds.
Import Py Effects PriceSource.
Local Open Scope float_scope.
Local Open Scope string_scope.

Definition nine_o_clock : Clock.datetime :=
  {| Clock.year := 2025; Clock.month := 3; Clock.day := 10; Clock.hour := 9;
     Clock.minute := 0; Clock.second := 0; Clock.microsecond := 0 |}.

(** A world in which only the given replies matter. *)
Definition world_of (replies : request -> reply) : world :=
  {| clock := nine_o_clock;
     http := replies;
     history := fun _ => [];
     NEWS_API_KEY := None;
     GNEWS_API_KEY := None;
     send_message_error := fun _ => None;
     chart_renders := false;
     send_photo_error := None |}.

(** Coinbase answers [{"price": -1.0}]. *)
Definition negative_ticker : world :=
  world_of (fun r =>
    match r with
    | CoinbaseTicker _ => Body (Some (JDict [("price", JFloat (-1))]))
    | _ => NoReply
    end).

(** Coinbase is down, CoinGecko answers [{"bitcoin": {"usd": 64000}}]. *)
Definition coinbase_down : world :=
  world_of (fun r =>
    match r with
    | CoinGeckoPrice _ => Body (Some (JDict [("bitcoin", JDict [("usd", JInt 64000)])]))
    | _ => NoReply
    end).

Definition no_parser : string -> option float := fun _ => None.

Lemma coinbase_down_run :
  run (get_coinbase_price no_parser "bitcoin") coinbase_down
  = (Some (Some 64000), [Get (CoinbaseTicker "BTC"); Get (CoinGeckoPrice "bitcoin")]).
Proof. reflexivity. Qed.

(** C5, as stated, fails: a negative price in the ticker is returned as
    it is. *)
Lemma returned_price_not_positive :
  ~ (forall float_of_str coin_id w p log,
        run (get_coinbase_price float_of_str coin_id) w = (Some (Some p), log) ->
        (0 <? p)%float = true).
Proof.
  intros H.
  specialize (H no_parser "bitcoin" negative_ticker (-1)
                [Get (CoinbaseTicker "BTC")] eq_refl).
  discriminate H.
Qed.

Lemma returned_price_is_parsed_field_witness :
  coinbase_returns no_parser (http negative_ticker (CoinbaseTicker (symbol_of "bitcoin"))) (-1)
  \/ (fails (coinbase_returns no_parser
               (http negative_ticker (CoinbaseTicker (symbol_of "bitcoin"))))
      /\ coingecko_returns no_parser (cg_id_of "bitcoin")
           (http negative_ticker (CoinGeckoPrice (cg_id_of "bitcoin"))) (-1)).
Proof.
  apply (returned_price_is_parsed_field no_parser "bitcoin" negative_ticker (-1)
           [Get (CoinbaseTicker "BTC")]).
  reflexivity.
Defined.

End PriceWorlds.

(** ** One attempt of the news lookup *)

Section NewsFacts.
Import Py Effects News.
Variable repr : json -> string.

Lemma attempt_run (key : option string) (req : request) (n : nat)
  (w : world) (log : list event) :
  (configured key = false /\ attempt repr key req n w log = (Some None, log))
  \/ (configured key = true
      /\ exists out, attempt repr key req n w log = (Some out, log ++ [Get req])
         /\ (out = None <->
             match http w req with
             | Body (Some r) => digest repr n r = None
             | _ => True
             end)
         /\ (forall d, out = Some d <->
             exists r, http w req = Body (Some r) /\ digest repr n r = Some d)).
Proof.
  unfold attempt. destruct (configured key); [right | left; auto].
  split; [reflexivity |].
  unfold try_except, bind, requests_get, json_of, lift.
  destruct (http w req) as [| [r |]] eqn:R; simpl.
  - exists None. repeat split; auto; try discriminate.
    intros (r & H & _). discriminate.
  - destruct (digest repr n r) as [d |] eqn:D; simpl.
    + exists (Some d). repeat split; try discriminate; try congruence.
      * intros [= <-]. exists r. auto.
      * intros (r' & [= <-] & D'). congruence.
    + exists None. repeat split; auto; try discriminate.
      intros (r' & [= <-] & D'). congruence.
  - exists None. repeat split; auto; try discriminate.
    intros (r & H & _). discriminate.
Qed.

End NewsFacts.

(** ** The threshold guard *)

Section Threshold.
Import Py Effects Analysis.
Local Open Scope float_scope.

(** The guard lets through exactly the changes of magnitude at least three
    and the changes that are not numbers. *)
Lemma below_threshold_false (change : float) :
  below_threshold change = false
  <-> (3 <=? abs change) = true \/ is_nan change = true.
Proof.
  unfold below_threshold.
  destruct (is_nan change) eqn:N.
  - split; [auto |]. intros _. apply nan_ltb. rewrite abs_nan. exact N.
  - rewrite (not_ltb_leb (abs change) 3); [| rewrite abs_nan; exact N | reflexivity].
    split; [auto |]. intros [H | H]; [exact H | discriminate H].
Qed.

(** On numbers the decision is [abs(change) >= 3]. *)
Lemma notify_on_numbers (price prev_price : float) :
  is_nan (change_pct price prev_price) = false ->
  negb (below_threshold (change_pct price prev_price))
  = (3 <=? abs (change_pct price prev_price)).
Proof.
  intros N.
  destruct (below_threshold (change_pct price prev_price)) eqn:B; simpl.
  - destruct (3 <=? abs (change_pct price prev_price)) eqn:L; [| reflexivity].
    assert (H : below_threshold (change_pct price prev_price) = false)
      by (apply below_threshold_false; auto).
    congruence.
  - apply below_threshold_false in B. destruct B as [H | H]; congruence.
Qed.

(** The boundary is inside: a change of exactly three percent, up or down,
    is not below the threshold. *)
Lemma boundary_is_notified :
  below_threshold 3 = false /\ below_threshold (-3) = false
  /\ change_pct 103 100 = 3 /\ below_threshold (change_pct 103 100) = false.
Proof. repeat split; reflexivity. Qed.

(** C2: the change is [(price - prev_price) / prev_price * 100], evaluated
    left to right in binary64; 110 against 100 gives exactly 10.0 and 90
    against 100 exactly -10.0. *)
Theorem change_pct_formula :
  (forall price prev_price : float,
      change_pct price prev_price = (price - prev_price) / prev_price * 100)
  /\ change_pct 110 100 = 10
  /\ change_pct 90 100 = -10.
Proof. repeat split; reflexivity. Qed.

End Threshold.

(** ** The analysis of one coin *)

Section AnalysisFacts.
Import Py Effects Analysis.
Variable float_of_str : string -> option float.
Variable repr : json -> string.
Variable argsort : list Z -> list nat.
Variable window_mean : list float -> float.

Definition label_of (coin_id : string) : string :=
  upper (dict_get PriceSource.COINBASE_SYMBOL coin_id coin_id).

Definition chart_request (coin_id : string) : event :=
  Get (CoinGeckoChart (dict_get PriceSource.COINGECKO_ID coin_id coin_id) 2).

Definition target_of (w : world) : Z :=
  (Clock.instant_ns (clock w) - 86400000000000)%Z.

(** The texts handed to [bot.send_message], in order. *)
Definition sent (log : list event) : list string :=
  flat_map (fun e => match e with SendMessage text => [text] | _ => [] end) log.

(** A column without a time zone and a stamp with one: the subtraction is
    refused, so the lookup raises before anything is sorted. *)
Lemma closest_raises (df : list Frame.row) (target : Z) :
  Locator.closest argsort df target = None.
Proof. reflexivity. Qed.

(** With a price and a history that has rows, the analysis is left by the
    exception of the lookup, right after the history request. *)
Lemma analyze_coin_with_history (coin_id : string) (w : world)
  (price : float) (log1 : list event) :
  PriceSource.get_coinbase_price float_of_str coin_id w [] = (Some (Some price), log1) ->
  history w coin_id <> [] ->
  run (analyze_coin float_of_str repr argsort window_mean coin_id) w
  = (None, log1 ++ [chart_request coin_id]).
Proof.
  intros Hprice Hdf.
  unfold run, analyze_coin, bind, ask. rewrite Hprice. cbv beta iota.
  unfold emit at 1. cbv beta iota.
  destruct (history w coin_id) as [| r0 df']; [congruence |].
  rewrite closest_raises. reflexivity.
Qed.

End AnalysisFacts.

(** ** Worlds to run the analysis in *)

Section AnalysisWorlds.
Import Py Effects Analysis.
Local Open Scope float_scope.
Local Open Scope string_scope.

Definition a_day_before : Z := (Clock.instant_ns nine_o_clock - 86400000000000)%Z.

(** Coinbase quotes [price]; the history holds one sample, taken a day
    before to the second, at [prev_price]; no news key is configured. *)
Definition quoted (price prev_price : float) : world :=
  {| clock := nine_o_clock;
     http := fun r =>
       match r with
       | CoinbaseTicker _ => Body (Some (JDict [("price", JFloat price)]))
       | _ => NoReply
       end;
     history := fun _ => [ {| Frame.timestamp := a_day_before; Frame.price := prev_price |} ];
     NEWS_API_KEY := None;
     GNEWS_API_KEY := None;
     send_message_error := fun _ => None;
     chart_renders := true;
     send_photo_error := None |}.

(** No run gets as far as the sort; the positions in their given order
    stand in for it. *)
Definition given_order (keys : list Z) : list nat := seq 0 (List.length keys).

Definition analyze (coin_id : string) : M unit :=
  analyze_coin no_parser (fun _ => "") given_order Indicators.naive_mean coin_id.

(** The two scenarios of the specification, 31000 and 30500 against 30000:
    both end in the exception of the lookup, after the two requests. *)
Lemma scenarios_raise :
  run (analyze "bitcoin") (quoted 31000 30000)
  = (None, [Get (CoinbaseTicker "BTC"); Get (CoinGeckoChart "bitcoin" 2)])
  /\ run (analyze "bitcoin") (quoted 30500 30000)
     = (None, [Get (CoinbaseTicker "BTC"); Get (CoinGeckoChart "bitcoin" 2)]).
Proof. split; vm_compute; reflexivity. Qed.

(** C1, where the code departs from it: 103 against 100 is a change of
    exactly three percent, which the claim notifies and the guard of the
    code would let through; but the analysis never gets to the guard.  The
    lookup before it raises, the analysis is left with the exception and
    nothing is sent. *)
Theorem decision_is_never_reached :
  change_pct 103 100 = 3
  /\ (3 <=? abs (change_pct 103 100))%float = true
  /\ below_threshold (change_pct 103 100) = false
  /\ Locator.closest given_order (history (quoted 103 100) "bitcoin")
       (target_of (quoted 103 100)) = None
  /\ run (analyze "bitcoin") (quoted 103 100)
     = (None, [Get (CoinbaseTicker "BTC"); Get (CoinGeckoChart "bitcoin" 2)])
  /\ sent (snd (run (analyze "bitcoin") (quoted 103 100))) = [].
Proof. repeat split; vm_compute; reflexivity. Qed.

End AnalysisWorlds.

(** ** The reference point *)

Section LocatorFacts.
Import Locator.
Local Open Scope Z_scope.

(** The subtraction goes through exactly between operands of one kind. *)
Lemma subtract_raises (column_zone stamp_zone : zone) (column : list Z) (stamp : Z) :
  subtract column_zone column stamp_zone stamp = None
  <-> column_zone <> stamp_zone.
Proof.
  unfold subtract.
  destruct column_zone, stamp_zone; cbn; split; congruence.
Qed.

(** Three samples ten seconds apart; the target is the instant of the
    second. *)
Definition three_samples : list Frame.row :=
  [ {| Frame.timestamp := 0; Frame.price := 1%float |};
    {| Frame.timestamp := 10000000000; Frame.price := 2%float |};
    {| Frame.timestamp := 20000000000; Frame.price := 3%float |} ].

(** C3, where the code departs from it: on a series that holds the target
    itself the lookup returns no point.  The column of the history carries
    no time zone and the target carries one, so the subtraction raises and
    with it the lookup, whatever the sort would do. *)
Theorem reference_lookup_raises (argsort : list Z -> list nat) :
  COLUMN_ZONE <> NOW_ZONE
  /\ distances three_samples 10000000000 = None
  /\ closest argsort three_samples 10000000000 = None.
Proof. split; [discriminate | split; reflexivity]. Qed.

End LocatorFacts.

(** ** The relative-strength index *)

Section IndicatorFacts.
Import Indicators.
Local Open Scope float_scope.

Lemma eqb_zero (x : float) :
  (x =? 0) = true -> exists s, Prim2SF x = S754_zero s.
Proof.
  rewrite FloatAxioms.eqb_spec.
  replace (Prim2SF 0) with (S754_zero false) by reflexivity.
  destruct (Prim2SF x) as [s | s | | s m e]; try discriminate.
  - intros _. exists s. reflexivity.
  - destruct s; discriminate.
  - destruct s; discriminate.
Qed.

Lemma ltb_zero (x : float) :
  (0 <? x) = true ->
  Prim2SF x = S754_infinity false \/ exists m e, Prim2SF x = S754_finite false m e.
Proof.
  rewrite ltb_spec.
  replace (Prim2SF 0) with (S754_zero false) by reflexivity.
  destruct (Prim2SF x) as [s | s | | s m e]; try discriminate.
  - destruct s; [discriminate | auto].
  - destruct s; [discriminate |]. intros _. right. exists m, e. reflexivity.
Qed.

(** A positive mean of the rises over a zero mean of the falls: the ratio
    is an infinity, its reciprocal a zero, and the index is 100. *)
Lemma rsi_of_zero_down (roll_up roll_down : float) :
  (roll_down =? 0) = true -> (0 <? roll_up) = true ->
  rsi_of roll_up roll_down = 100.
Proof.
  intros Hd Hu. apply eqb_zero in Hd. destruct Hd as [s Hd].
  apply ltb_zero in Hu.
  unfold rsi_of. apply Prim2SF_inj.
  rewrite sub_spec, div_spec, add_spec, div_spec, Hd.
  remember (Prim2SF 100) as hundred eqn:E100. vm_compute in E100.
  remember (Prim2SF 1) as one eqn:E1. vm_compute in E1.
  subst hundred one.
  destruct Hu as [-> | (m & e & ->)]; destruct s; reflexivity.
Qed.

Lemma combine_nth_error {A B : Type} (l1 : list A) (l2 : list B) (i : nat) :
  nth_error (combine l1 l2) i
  = match nth_error l1 i, nth_error l2 i with
    | Some a, Some b => Some (a, b)
    | _, _ => None
    end.
Proof.
  revert l2 i. induction l1 as [| a l1 IH]; intros [| b l2] [| i]; cbn;
    try reflexivity.
  - destruct (nth_error l1 i); reflexivity.
  - apply IH.
Qed.

Section Library.
Variable window_mean : list float -> float.

Lemma rolling_mean_nth (period : nat) (xs : list float) (i : nat) :
  nth_error (rolling_mean window_mean period xs) i
  = if (i <? List.length xs)%nat
    then Some (rolling_mean_at window_mean period xs i) else None.
Proof.
  unfold rolling_mean. rewrite nth_error_map.
  destruct (i <? List.length xs)%nat eqn:L.
  - apply Nat.ltb_lt in L.
    rewrite (nth_error_nth' _ 0%nat) by (rewrite length_seq; exact L).
    rewrite seq_nth by exact L. reflexivity.
  - apply Nat.ltb_ge in L.
    replace (nth_error (seq 0 (List.length xs)) i) with (@None nat); [reflexivity |].
    symmetry. apply nth_error_None. rewrite length_seq. exact L.
Qed.

Lemma calc_rsi_nth (series : list float) (period i : nat) :
  nth_error (calc_rsi window_mean series period) i
  = match nth_error (rolling_mean window_mean period (up_moves series)) i,
          nth_error (rolling_mean window_mean period (down_moves series)) i with
    | Some u, Some d => Some (rsi_of u d)
    | _, _ => None
    end.
Proof.
  unfold calc_rsi. rewrite nth_error_map, combine_nth_error.
  destruct (nth_error _ i); [| reflexivity].
  destruct (nth_error _ i); reflexivity.
Qed.

Lemma diff_length (xs : list float) : List.length (diff xs) = List.length xs.
Proof.
  destruct xs as [| x xs]; [reflexivity |]. cbn [diff List.length]. f_equal.
  revert x. induction xs as [| y xs IH]; intros x; [reflexivity |].
  cbn [diff_from List.length]. f_equal. apply IH.
Qed.

Lemma rolling_mean_length (period : nat) (xs : list float) :
  List.length (rolling_mean window_mean period xs) = List.length xs.
Proof. unfold rolling_mean. rewrite length_map, length_seq. reflexivity. Qed.

Lemma calc_rsi_length (series : list float) (period : nat) :
  List.length (calc_rsi window_mean series period) = List.length series.
Proof.
  unfold calc_rsi. rewrite length_map, length_combine, !rolling_mean_length.
  unfold up_moves, down_moves. rewrite !length_map, diff_length.
  apply Nat.min_id.
Qed.

(** A window that still reaches the first position has no mean when that
    position holds no number. *)
Lemma rolling_mean_at_start (period i : nat) (x : float) (xs : list float) :
  is_finite x = false -> (i < period)%nat ->
  rolling_mean_at window_mean period (x :: xs) i = nan.
Proof.
  intros Hx Hi. unfold rolling_mean_at, window.
  replace (i + 1 - period)%nat with 0%nat by lia.
  replace (i + 1)%nat with (S i) by lia.
  cbn [skipn firstn forallb]. rewrite Hx, andb_false_r. reflexivity.
Qed.

Lemma rolling_moves_start (period i : nat) (series : list float) (u d : float) :
  (i < period)%nat ->
  nth_error (rolling_mean window_mean period (up_moves series)) i = Some u ->
  nth_error (rolling_mean window_mean period (down_moves series)) i = Some d ->
  u = nan /\ d = nan.
Proof.
  intros Hi Hu Hd. rewrite rolling_mean_nth in Hu, Hd.
  destruct series as [| a rest]; [discriminate Hu |].
  unfold up_moves, down_moves, diff in *. cbn [map] in *.
  destruct (_ <? _)%nat; [| discriminate Hu].
  destruct (_ <? _)%nat; [| discriminate Hd].
  injection Hu as <-. injection Hd as <-.
  split; apply rolling_mean_at_start; auto.
Qed.

(** C7: at a position where the rolling mean of the falls is zero and the
    rolling mean of the rises is positive the index is 100; and at every
    position before [period], where both rolling means lack history, the
    index is [nan], so a series of fewer than [period] points has no
    defined index at all. *)
Theorem rsi_edge_cases (series : list float) (period : nat) :
  (forall i roll_up roll_down,
      nth_error (rolling_mean window_mean period (up_moves series)) i = Some roll_up ->
      nth_error (rolling_mean window_mean period (down_moves series)) i = Some roll_down ->
      (roll_down =? 0) = true -> (0 <? roll_up) = true ->
      nth_error (calc_rsi window_mean series period) i = Some 100)
  /\ (forall i x,
         (i < period)%nat ->
         nth_error (calc_rsi window_mean series period) i = Some x ->
         is_nan x = true)
  /\ ((List.length series < period)%nat ->
      List.length (calc_rsi window_mean series period) = List.length series
      /\ Forall (fun x => is_nan x = true) (calc_rsi window_mean series period)).
Proof.
  assert (Hstart : forall i x, (i < period)%nat ->
            nth_error (calc_rsi window_mean series period) i = Some x ->
            is_nan x = true).
  { intros i x Hi Hx. rewrite calc_rsi_nth in Hx.
    destruct (nth_error _ i) as [u |] eqn:Eu; [| discriminate Hx].
    destruct (nth_error (rolling_mean window_mean period (down_moves series)) i)
      as [d |] eqn:Ed; [| discriminate Hx].
    destruct (rolling_moves_start period i series u d Hi Eu Ed) as [-> ->].
    injection Hx as <-. reflexivity. }
  split; [| split].
  - intros i ru rd Hu Hd Hz Hp. rewrite calc_rsi_nth, Hu, Hd.
    rewrite (rsi_of_zero_down ru rd Hz Hp). reflexivity.
  - exact Hstart.
  - intros Hlen.
    assert (L : List.length (calc_rsi window_mean series period) = List.length series).
    { apply calc_rsi_length. }
    split; [exact L |].
    apply Forall_forall. intros x Hx. apply In_nth_error in Hx.
    destruct Hx as (i & Hi). apply (Hstart i x); [| exact Hi].
    assert (i < List.length (calc_rsi window_mean series period))%nat
      by (apply nth_error_Some; congruence).
    lia.
Qed.

End Library.

(** Sixteen rising prices: from the fifteenth on every window of fourteen
    steps holds rises only. *)
Definition rising : list float :=
  map (fun k => of_uint63 (Uint63.of_Z (Z.of_nat k))) (seq 1 16).

Lemma rising_rsi :
  calc_rsi naive_mean rising 14
  = [nan; nan; nan; nan; nan; nan; nan; nan; nan; nan; nan; nan; nan; nan; 100; 100].
Proof. vm_compute. reflexivity. Qed.

Lemma sma_example :
  rolling_mean naive_mean 3 [1; 2; 3; 4] = [nan; nan; 2; 3].
Proof. vm_compute. reflexivity. Qed.

Lemma rsi_edge_cases_witness :
  nth_error (calc_rsi naive_mean rising 14) 14 = Some 100.
Proof.
  apply (proj1 (rsi_edge_cases naive_mean rising 14) 14%nat 1 0);
    vm_compute; reflexivity.
Defined.

End IndicatorFacts.

(** ** The hourly loop *)

Section RoundingFacts.
Variables prec emax : Z.

Lemma shr_1_nonneg (mrs : shr_record) :
  (0 <= shr_m mrs)%Z -> (0 <= shr_m (shr_1 mrs))%Z.
Proof.
  destruct mrs as [m r s]. destruct m as [| p | p]; cbn.
  - intros _. apply Z.le_refl.
  - intros _. destruct p; cbn; lia.
  - lia.
Qed.

Lemma iter_pos_shr_1_nonneg (n : positive) (mrs : shr_record) :
  (0 <= shr_m mrs)%Z -> (0 <= shr_m (SpecFloat.iter_pos shr_1 n mrs))%Z.
Proof.
  revert mrs. induction n as [n IH | n IH |]; intros mrs H; cbn.
  - apply IH, IH, shr_1_nonneg, H.
  - apply IH, IH, H.
  - apply shr_1_nonneg, H.
Qed.

Lemma shr_fexp_nonneg (m e : Z) (l : location) :
  (0 <= m)%Z -> (0 <= shr_m (fst (shr_fexp prec emax m e l)))%Z.
Proof.
  intros H. unfold shr_fexp, shr.
  assert (H0 : (0 <= shr_m (shr_record_of_loc m l))%Z)
    by (destruct l as [| []]; exact H).
  destruct (fexp prec emax (Zdigits2 m + e) - e)%Z; cbn [fst];
    [exact H0 | apply iter_pos_shr_1_nonneg; exact H0 | exact H0].
Qed.

Lemma round_nearest_even_nonneg (m : Z) (l : location) :
  (0 <= m)%Z -> (0 <= round_nearest_even m l)%Z.
Proof.
  intros H. destruct l as [| []]; cbn; try exact H; [| lia].
  destruct (Z.even m); lia.
Qed.

(** Rounding a non-negative mantissa never gives [nan]. *)
Lemma binary_round_aux_not_nan (sx : bool) (mx ex : Z) (lx : location) :
  (0 <= mx)%Z -> binary_round_aux prec emax sx mx ex lx <> S754_nan.
Proof.
  intros H. unfold binary_round_aux.
  pose proof (shr_fexp_nonneg mx ex lx H) as H1.
  destruct (shr_fexp prec emax mx ex lx) as [mrs' e']. cbn [fst] in H1.
  pose proof (shr_fexp_nonneg
                (round_nearest_even (shr_m mrs') (loc_of_shr_record mrs')) e' loc_Exact
                (round_nearest_even_nonneg _ _ H1)) as H2.
  destruct (shr_fexp prec emax _ e' loc_Exact) as [mrs'' e'']. cbn [fst] in H2.
  destruct (shr_m mrs'') as [| p | p]; [discriminate | | lia].
  destruct (e'' <=? emax - prec)%Z; discriminate.
Qed.

Lemma binary_normalize_not_nan (m e : Z) (s : bool) :
  binary_normalize prec emax m e s <> S754_nan.
Proof.
  destruct m as [| p | p]; cbn; [discriminate | |];
    unfold binary_round; destruct (shl_align _ _ _) as [mz ez];
    apply binary_round_aux_not_nan; lia.
Qed.

(** Dividing a number by a finite non-zero number gives a number. *)
Lemma SFdiv_finite_not_nan (x : spec_float) (sy : bool) (my : positive) (ey : Z) :
  x <> S754_nan -> SFdiv prec emax x (S754_finite sy my ey) <> S754_nan.
Proof.
  intros Hx. destruct x as [sx | sx | | sx mx ex]; cbn [SFdiv];
    [discriminate | discriminate | congruence |].
  unfold SFdiv_core_binary.
  match goal with
  | |- context [Z.div_eucl ?a ?b] =>
      pose proof (Z_div_mod a b eq_refl) as D;
      assert (Ha : (0 <= a)%Z);
      [| destruct (Z.div_eucl a b) as [q r] eqn:Eq ]
  end.
  - destruct (ex - ey - _)%Z; [lia | | lia].
    apply Z.shiftl_nonneg. lia.
  - apply binary_round_aux_not_nan. destruct D as [D1 D2]. nia.
Qed.

End RoundingFacts.

(** ** A reference price at or below zero *)

Section ReferenceFacts.
Import Py Effects Analysis.
Local Open Scope float_scope.

(** A value that is a zero, an infinity or a finite number of sign [s]. *)
Definition signed (s : bool) (x : spec_float) : Prop :=
  x = S754_zero s \/ x = S754_infinity s \/ exists m e, x = S754_finite s m e.

(** Rounding keeps the sign it is given. *)
Lemma binary_round_aux_signed (prec emax : Z) (sx : bool) (mx ex : Z) (lx : location) :
  (0 <= mx)%Z -> signed sx (binary_round_aux prec emax sx mx ex lx).
Proof.
  intros H. unfold binary_round_aux.
  pose proof (shr_fexp_nonneg prec emax mx ex lx H) as H1.
  destruct (shr_fexp prec emax mx ex lx) as [mrs' e']. cbn [fst] in H1.
  pose proof (shr_fexp_nonneg prec emax
                (round_nearest_even (shr_m mrs') (loc_of_shr_record mrs')) e' loc_Exact
                (round_nearest_even_nonneg _ _ H1)) as H2.
  destruct (shr_fexp prec emax _ e' loc_Exact) as [mrs'' e'']. cbn [fst] in H2.
  destruct (shr_m mrs'') as [| p | p]; [left; reflexivity | | lia].
  destruct (e'' <=? emax - prec)%Z; right; [right; eauto | left; reflexivity].
Qed.

Lemma SFdiv_finite_signed (prec emax : Z) (sx sy : bool) (mx my : positive) (ex ey : Z) :
  signed (xorb sx sy)
    (SFdiv prec emax (S754_finite sx mx ex) (S754_finite sy my ey)).
Proof.
  cbn [SFdiv]. unfold SFdiv_core_binary.
  match goal with
  | |- context [Z.div_eucl ?a ?b] =>
      pose proof (Z_div_mod a b eq_refl) as D;
      assert (Ha : (0 <= a)%Z);
      [| destruct (Z.div_eucl a b) as [q r] eqn:Eq ]
  end.
  - destruct (ex - ey - _)%Z; [lia | | lia].
    apply Z.shiftl_nonneg. lia.
  - apply binary_round_aux_signed. destruct D as [D1 D2]. nia.
Qed.

Lemma ltb_zero_neg (x : float) :
  (x <? 0) = true ->
  Prim2SF x = S754_infinity true \/ exists m e, Prim2SF x = S754_finite true m e.
Proof.
  rewrite ltb_spec.
  replace (Prim2SF 0) with (S754_zero false) by reflexivity.
  destruct (Prim2SF x) as [s | s | | s m e]; try discriminate.
  - destruct s; [auto | discriminate].
  - destruct s; [| discriminate]. intros _. right. exists m, e. reflexivity.
Qed.

(** At or below zero: a zero or a negative number. *)
Lemma leb_zero (x : float) :
  (x <=? 0) = true -> (x =? 0) = true \/ (x <? 0) = true.
Proof.
  rewrite leb_spec, FloatAxioms.eqb_spec, ltb_spec.
  replace (Prim2SF 0) with (S754_zero false) by reflexivity.
  destruct (Prim2SF x) as [s | s | | s m e]; try discriminate.
  - intros _. left. destruct s; reflexivity.
  - destruct s; [intros _; right; reflexivity | discriminate].
  - destruct s; [intros _; right; reflexivity | discriminate].
Qed.

(** A positive price over a zero: the quotient is an infinity. *)
Lemma change_over_zero (price prev : float) :
  (prev =? 0) = true -> (0 <? price) = true ->
  abs (change_pct price prev) = infinity.
Proof.
  intros Hz Hp. apply eqb_zero in Hz. destruct Hz as [s Hz].
  apply ltb_zero in Hp.
  unfold change_pct. apply Prim2SF_inj.
  rewrite abs_spec, mul_spec, div_spec, sub_spec, Hz.
  remember (Prim2SF 100) as hundred eqn:E100. vm_compute in E100. subst hundred.
  destruct Hp as [-> | (m & e & ->)]; destruct s; reflexivity.
Qed.

(** A positive price against a negative reference: the difference is
    positive, the quotient and the change are not. *)
Lemma change_over_negative (price prev : float) :
  (prev <? 0) = true -> (0 <? price) = true ->
  (0 <? change_pct price prev) = false.
Proof.
  intros Hn Hp. apply ltb_zero_neg in Hn. apply ltb_zero in Hp.
  unfold change_pct. rewrite ltb_spec, mul_spec, div_spec, sub_spec.
  remember (Prim2SF 100) as hundred eqn:E100. vm_compute in E100.
  replace (Prim2SF 0) with (S754_zero false) by reflexivity.
  assert (D : signed false (SF64sub (Prim2SF price) (Prim2SF prev))).
  { destruct Hp as [-> | (m & e & ->)], Hn as [-> | (m' & e' & ->)];
      try (right; left; reflexivity).
    unfold SF64sub, SFsub. cbn [cond_Zopp].
    match goal with
    | |- context [(Z.pos ?a - - Z.pos ?b)%Z] =>
        change (Z.pos a - - Z.pos b)%Z with (Z.pos (a + b))
    end.
    cbn [binary_normalize]. unfold binary_round.
    destruct (shl_align _ _ _) as [mz ez].
    apply binary_round_aux_signed. lia. }
  assert (Q : SF64div (SF64sub (Prim2SF price) (Prim2SF prev)) (Prim2SF prev) = S754_nan
              \/ signed true
                   (SF64div (SF64sub (Prim2SF price) (Prim2SF prev)) (Prim2SF prev))).
  { destruct D as [-> | [-> | (m & e & ->)]],
             Hn as [-> | (m' & e' & ->)];
      try (left; reflexivity);
      try (right; left; reflexivity);
      try (right; right; left; reflexivity).
    right. apply (SFdiv_finite_signed prec emax false true). }
  subst hundred.
  destruct Q as [-> | [-> | [-> | (m & e & ->)]]]; try reflexivity.
  match goal with
  | |- SFltb _ ?c = false =>
      assert (C : signed true c)
        by (unfold SF64mul; cbn [SFmul xorb]; apply binary_round_aux_signed; lia);
      destruct C as [-> | [-> | (m2 & e2 & ->)]]; reflexivity
  end.
Qed.

(** C6, as amended: a reference price at or below zero is divided by like
    any other, nothing is raised and nothing is checked.  For a positive
    price, a reference of zero gives an infinite change, which is not below
    the threshold; a negative reference gives a change that is not
    positive, although the price is above the reference. *)
Theorem nonpositive_reference_is_divided (price prev_price : float) :
  (prev_price <=? 0) = true -> (0 <? price) = true ->
  let change := change_pct price prev_price in
  change = (price - prev_price) / prev_price * 100
  /\ ((prev_price =? 0) = true
       /\ abs change = infinity /\ below_threshold change = false
      \/ (prev_price <? 0) = true /\ (0 <? change) = false).
Proof.
  intros Hle Hp change. split; [reflexivity |].
  destruct (leb_zero prev_price Hle) as [Hz | Hn].
  - left. split; [exact Hz |].
    pose proof (change_over_zero price prev_price Hz Hp) as A.
    split; [exact A |]. unfold below_threshold, change. rewrite A. reflexivity.
  - right. split; [exact Hn |]. apply change_over_negative; assumption.
Qed.

(** C6, as stated, fails: with a reference price of zero nothing like
    [InvalidReference] comes out of the change, which is evaluated to an
    infinity; and the coin is not skipped, the analysis is left by the
    exception of the lookup. *)
Lemma zero_reference_is_not_refused :
  (Frame.price {| Frame.timestamp := a_day_before; Frame.price := 0 |} <=? 0) = true
  /\ change_pct 64000 0 = infinity
  /\ run (analyze "bitcoin") (quoted 64000 0)
     = (None, [Get (CoinbaseTicker "BTC"); Get (CoinGeckoChart "bitcoin" 2)]).
Proof. repeat split; vm_compute; reflexivity. Qed.

(** A negative reference is divided by as well. *)
Lemma negative_reference_example : change_pct 64000 (-100) = -64100.
Proof. vm_compute. reflexivity. Qed.

Lemma nonpositive_reference_is_divided_witness :
  (change_pct 64000 0 = (64000 - 0) / 0 * 100
   /\ ((0 =? 0) = true
        /\ abs (change_pct 64000 0) = infinity
        /\ below_threshold (change_pct 64000 0) = false
       \/ (0 <? 0) = true /\ (0 <? change_pct 64000 0) = false))
  /\ (change_pct 64000 (-100) = (64000 - -100) / -100 * 100
      /\ ((-100 =? 0) = true
           /\ abs (change_pct 64000 (-100)) = infinity
           /\ below_threshold (change_pct 64000 (-100)) = false
          \/ (-100 <? 0) = true /\ (0 <? change_pct 64000 (-100)) = false)).
Proof.
  split.
  - apply (nonpositive_reference_is_divided 64000 0); reflexivity.
  - apply (nonpositive_reference_is_divided 64000 (-100)); reflexivity.
Defined.

End ReferenceFacts.

Section SchedulerFacts.
Import Clock Scheduler.
Local Open Scope Z_scope.

Lemma days_before_month_succ (y m : Z) :
  1 <= m <= 11 ->
  days_before_month y (m + 1) = days_before_month y m + days_in_month y m.
Proof.
  intros H.
  assert (C : m = 1 \/ m = 2 \/ m = 3 \/ m = 4 \/ m = 5 \/ m = 6 \/ m = 7
              \/ m = 8 \/ m = 9 \/ m = 10 \/ m = 11) by lia.
  unfold days_before_month, days_in_month.
  repeat match goal with
         | D : _ \/ _ |- _ => destruct D as [D | D]
         end;
    subst m; destruct (is_leap y); vm_compute; reflexivity.
Qed.

Lemma days_before_december (y : Z) :
  days_before_month y 12 = if is_leap y then 335 else 334.
Proof.
  unfold days_before_month, days_in_month.
  destruct (is_leap y); vm_compute; reflexivity.
Qed.

Lemma days_before_year_succ (y : Z) :
  days_before_year (y + 1)
  = days_before_year y + days_before_month y 12 + 31.
Proof.
  rewrite days_before_december. unfold days_before_year, is_leap.
  replace (y + 1 - 1) with y by lia. cbv zeta.
  destruct (Z.eqb_spec (y mod 4) 0), (Z.eqb_spec (y mod 100) 0),
    (Z.eqb_spec (y mod 400) 0); cbn [andb orb negb];
    Z.div_mod_to_equations; lia.
Qed.

(** The day after is one ordinal later. *)
Lemma toordinal_next_day (d : datetime) :
  valid d -> toordinal (next_day d) = toordinal d + 1.
Proof.
  intros (Hy & Hm & Hd & _). unfold next_day, toordinal.
  destruct (Z.ltb_spec (day d) (days_in_month (year d) (month d))); cbn.
  - lia.
  - destruct (Z.ltb_spec (month d) 12); cbn.
    + rewrite days_before_month_succ by lia.
      replace (days_before_month (year d) 1) with 0 by reflexivity. lia.
    + assert (month d = 12) as E by lia. rewrite E in *.
      rewrite days_before_year_succ.
      replace (days_before_month (year d + 1) 1) with 0 by reflexivity.
      assert (days_in_month (year d) 12 = 31) as E31 by reflexivity.
      lia.
Qed.

Lemma next_run_fields (now : datetime) :
  valid now ->
  toordinal (next_run now) = toordinal now + (if hour now <? 23 then 0 else 1)
  /\ hour (next_run now) = (if hour now <? 23 then hour now + 1 else 0)
  /\ minute (next_run now) = 0
  /\ second (next_run now) = 5
  /\ microsecond (next_run now) = 0.
Proof.
  intros V. pose proof (toordinal_next_day now V) as N.
  unfold next_run, replace, add_hour.
  destruct (hour now <? 23).
  - repeat split. unfold toordinal. cbn [year month day]. lia.
  - repeat split. unfold toordinal in *. cbn [year month day]. lia.
Qed.

(** The wait the loop computes before the floor: the top of the next hour
    plus five seconds is 3605 seconds after the top of this hour. *)
Lemma next_run_sub (now : datetime) :
  valid now ->
  sub (next_run now) now
  = 3605000000 - ((minute now * 60 + second now) * 1000000 + microsecond now).
Proof.
  intros V. destruct (next_run_fields now V) as (Ho & Hh & Hm & Hs & Hu).
  destruct V as (_ & _ & _ & Hhour & _).
  unfold sub, micros_of_day. rewrite Ho, Hh, Hm, Hs, Hu.
  generalize (toordinal now). intros t.
  destruct (Z.ltb_spec (hour now) 23); lia.
Qed.

Local Open Scope float_scope.

Lemma float_of_micros_not_nan (us : Z) : is_nan (float_of_micros us) = false.
Proof.
  apply is_nan_false. unfold float_of_micros.
  destruct (us <? 0)%Z.
  - rewrite opp_spec, of_uint63_spec.
    pose proof (binary_normalize_not_nan prec emax
                  (Uint63.to_Z (Uint63.of_Z (- us))) 0 false) as H.
    destruct (binary_normalize _ _ _ _ _); cbn; congruence.
  - rewrite of_uint63_spec. apply binary_normalize_not_nan.
Qed.

Lemma total_seconds_not_nan (td : Z) : is_nan (total_seconds td) = false.
Proof.
  apply is_nan_false. unfold total_seconds. rewrite div_spec.
  remember (Prim2SF 1000000) as million eqn:E. vm_compute in E. subst million.
  apply SFdiv_finite_not_nan. apply is_nan_false, float_of_micros_not_nan.
Qed.

(** The floor holds whatever the difference of the two datetimes is. *)
Lemma max60_floor (td : Z) : (60 <=? max60 (total_seconds td)) = true.
Proof.
  unfold max60. destruct (total_seconds td <? 60) eqn:L.
  - reflexivity.
  - apply (not_ltb_leb (total_seconds td) 60);
      [apply total_seconds_not_nan | reflexivity | exact L].
Qed.

(** C8: the sleep is at least sixty seconds at every time of day.  Before
    the floor the wait runs to five seconds past the top of the next hour:
    [next_run] has minute 0, second 5 and microsecond 0, and lies 3605
    seconds after the top of the current hour. *)
Theorem sleep_is_floored (now : datetime) :
  (60 <=? wait_seconds now) = true
  /\ wait_seconds now = max60 (total_seconds (sub (next_run now) now))
  /\ minute (next_run now) = 0%Z
  /\ second (next_run now) = 5%Z
  /\ microsecond (next_run now) = 0%Z
  /\ (valid now ->
      sub (next_run now) (replace now 0 0 0) = 3605000000%Z
      /\ sub (next_run now) now
         = (3605000000
            - ((minute now * 60 + second now) * 1000000 + microsecond now))%Z
      /\ (5000000 < sub (next_run now) now <= 3605000000)%Z).
Proof.
  split; [apply max60_floor |].
  split; [reflexivity |].
  split; [reflexivity |]. split; [reflexivity |]. split; [reflexivity |].
  intros V. pose proof (next_run_sub now V) as E.
  split; [| split; [exact E |]].
  - destruct (next_run_fields now V) as (Ho & Hh & Hm & Hs & Hu).
    destruct V as (_ & _ & _ & Hhour & _).
    unfold sub, micros_of_day. rewrite Ho, Hh, Hm, Hs, Hu.
    replace (toordinal (replace now 0 0 0)) with (toordinal now) by reflexivity.
    cbn [replace hour minute second microsecond].
    generalize (toordinal now). intros t.
    destruct (Z.ltb_spec (hour now) 23); lia.
  - destruct V as (_ & _ & _ & _ & Hmi & Hs & Hus). rewrite E. lia.
Qed.

(** Half a minute before midnight the wait to the next run is 35 seconds
    and the loop sleeps 60; at the top of an hour it sleeps 3605. *)
Lemma sleep_examples :
  let late := {| year := 2025; month := 12; day := 31; hour := 23;
                 minute := 59; second := 30; microsecond := 0 |} in
  let sharp := {| year := 2025; month := 3; day := 10; hour := 9;
                  minute := 0; second := 0; microsecond := 0 |} in
  sub (next_run late) late = 35000000%Z
  /\ wait_seconds late = 60
  /\ wait_seconds sharp = 3605.
Proof. repeat split; vm_compute; reflexivity. Qed.

End SchedulerFacts.

(** ** The news lookup *)

Section NewsLookup.
Import Py Effects News.
Variable repr : json -> string.

(** A provider answers with zero articles: a JSON object whose
    ["articles"] entry is missing or the empty list. *)
Definition zero_articles (r : json) : Prop :=
  exists d, r = JDict d /\ dict_get d "articles" (JList []) = JList [].

(** An attempt raises: no reply, a body that is not JSON, or a document
    the digest cannot be built from. *)
Definition raises (w : world) (req : request) (n : nat) : Prop :=
  match http w req with
  | Body (Some r) => digest repr n r = None
  | _ => True
  end.

Definition newsapi_request (w : world) (symbol : string) (n : nat) : request :=
  NewsApiEverything (symbol ++ " OR crypto OR cryptocurrency OR blockchain") n
    (key_text (NEWS_API_KEY w)).

Definition gnews_request (w : world) (symbol : string) (n : nat) : request :=
  GNewsSearch symbol n (key_text (GNEWS_API_KEY w)).

Lemma digest_zero (n : nat) (r : json) :
  zero_articles r -> digest repr n r = Some "".
Proof.
  intros (d & -> & H). unfold digest, get. rewrite H.
  destruct n; reflexivity.
Qed.

(** A digest is empty or starts with the header; it is never the fixed
    "no news" text. *)
Lemma digest_not_no_news (n : nat) (r : json) (d : string) :
  digest repr n r = Some d -> d <> NO_NEWS.
Proof.
  unfold digest. destruct (get r "articles" (JList [])) as [v |]; [| discriminate].
  destruct v as [| b | z | f | s | l | dd]; try discriminate.
  - destruct (substring 0 n s); [| discriminate].
    intros [= <-]. discriminate.
  - destruct (firstn n l) as [| a rest].
    + intros [= <-]. discriminate.
    + destruct (article_lines repr (a :: rest)) as [lines |]; [| discriminate].
      intros [= <-]. unfold HEADER, NO_NEWS. cbn [append]. discriminate.
Qed.

(** C10: a first configured provider that answers with zero articles makes
    the lookup return the empty string after that single request; and the
    fixed "no news" text is returned only when each provider either has no
    key configured or raised (and whenever that is so). *)
Theorem news_lookup_order (symbol : string) (n : nat) (w : world) :
  (configured (NEWS_API_KEY w) = true ->
   forall r, http w (newsapi_request w symbol n) = Body (Some r) ->
             zero_articles r ->
             run (get_news_for_symbol repr symbol n) w
             = (Some "", [Get (newsapi_request w symbol n)]))
  /\ (configured (NEWS_API_KEY w) = false ->
      configured (GNEWS_API_KEY w) = true ->
      forall r, http w (gnews_request w symbol n) = Body (Some r) ->
                zero_articles r ->
                run (get_news_for_symbol repr symbol n) w
                = (Some "", [Get (gnews_request w symbol n)]))
  /\ (forall log,
         run (get_news_for_symbol repr symbol n) w = (Some NO_NEWS, log) ->
         (configured (NEWS_API_KEY w) = false \/ raises w (newsapi_request w symbol n) n)
         /\ (configured (GNEWS_API_KEY w) = false
             \/ raises w (gnews_request w symbol n) n))
  /\ ((configured (NEWS_API_KEY w) = false \/ raises w (newsapi_request w symbol n) n) ->
      (configured (GNEWS_API_KEY w) = false \/ raises w (gnews_request w symbol n) n) ->
      fst (run (get_news_for_symbol repr symbol n) w) = Some NO_NEWS).
Proof.
  unfold run, get_news_for_symbol, bind, ask.
  fold (newsapi_request w symbol n). fold (gnews_request w symbol n).
  set (req1 := newsapi_request w symbol n). set (req2 := gnews_request w symbol n).
  destruct (attempt_run repr (NEWS_API_KEY w) req1 n w [])
    as [[C1 E1] | [C1 (o1 & E1 & N1 & S1)]]; rewrite E1; cbv beta iota.
  - (* no first key *)
    destruct (attempt_run repr (GNEWS_API_KEY w) req2 n w [])
      as [[C2 E2] | [C2 (o2 & E2 & N2 & S2)]]; rewrite E2; cbv beta iota.
    + repeat split; try congruence; auto.
    + split; [congruence |]. split.
      { intros _ _ r Hr Z. assert (o2 = Some "") as ->.
        { apply S2. exists r. split; [exact Hr | apply digest_zero; exact Z]. }
        reflexivity. }
      split.
      { intros log H. split; [left; exact C1 |]. right. unfold raises.
        destruct o2 as [d |].
        - exfalso. injection H as -> _.
          destruct (proj1 (S2 NO_NEWS) eq_refl) as (r & _ & D).
          exact (digest_not_no_news n r NO_NEWS D eq_refl).
        - apply N2. reflexivity. }
      intros _ [F | R]; [congruence |].
      assert (o2 = None) as -> by (apply N2; exact R). reflexivity.
  - (* first key configured *)
    split.
    { intros _ r Hr Z. assert (o1 = Some "") as ->.
      { apply S1. exists r. split; [exact Hr | apply digest_zero; exact Z]. }
      reflexivity. }
    split; [congruence |].
    destruct o1 as [d1 |]; cbv beta iota.
    + split.
      { intros log H. exfalso. injection H as -> _.
        destruct (proj1 (S1 NO_NEWS) eq_refl) as (r & _ & D).
        exact (digest_not_no_news n r NO_NEWS D eq_refl). }
      intros [F | R] _; [congruence |].
      assert (Some d1 = None) by (apply N1; exact R). discriminate.
    + assert (R1 : raises w req1 n) by (apply N1; reflexivity).
      destruct (attempt_run repr (GNEWS_API_KEY w) req2 n w ([] ++ [Get req1]))
        as [[C2 E2] | [C2 (o2 & E2 & N2 & S2)]]; rewrite E2; cbv beta iota.
      * split; [intros log _; split; [right; exact R1 | left; exact C2] |].
        intros _ _. reflexivity.
      * split.
        { intros log H. split; [right; exact R1 |]. right.
          destruct o2 as [d |].
          - exfalso. injection H as -> _.
            destruct (proj1 (S2 NO_NEWS) eq_refl) as (r & _ & D).
            exact (digest_not_no_news n r NO_NEWS D eq_refl).
          - apply N2. reflexivity. }
        intros _ [F | R]; [congruence |].
        assert (o2 = None) as -> by (apply N2; exact R). reflexivity.
Qed.

End NewsLookup.

Section NewsWorlds.
Import Py Effects News.

(** NewsAPI is configured and answers [{"articles": []}]; GNews is
    configured too and would have an article. *)
Definition quiet_newsapi : world :=
  {| clock := nine_o_clock;
     http := fun r =>
       match r with
       | NewsApiEverything _ _ _ => Body (Some (JDict [("articles", JList [])]))
       | GNewsSearch _ _ _ =>
           Body (Some (JDict [("articles",
                  JList [JDict [("title", JStr "Bitcoin rallies");
                                ("source", JDict [("name", JStr "Wire")]);
                                ("url", JStr "https://example.org/a")]])]))
       | _ => NoReply
       end;
     history := fun _ => [];
     NEWS_API_KEY := Some "k1";
     GNEWS_API_KEY := Some "k2";
     send_message_error := fun _ => None;
     chart_renders := false;
     send_photo_error := None |}.

Lemma quiet_newsapi_run :
  run (get_news_for_symbol (fun _ => "") "BTC" 3) quiet_newsapi
  = (Some "",
     [Get (NewsApiEverything "BTC OR crypto OR cryptocurrency OR blockchain" 3 "k1")]).
Proof. reflexivity. Qed.

End NewsWorlds.

(** ** The message text *)

Section TextFacts.
Import Py.

















End TextFacts.

Section MessageFacts.
Import Py Analysis.









End MessageFacts.

Section MessageWorlds.
Import Py Effects Analysis.
Local Open Scope float_scope.
Local Open Scope string_scope.

(** The quote of the first scenario, with NewsAPI configured and answering
    with one article whose [url] ends in a line feed. *)
Definition trailing_feed : world :=
  {| clock := nine_o_clock;
     http := fun r =>
       match r with
       | CoinbaseTicker _ => Body (Some (JDict [("price", JFloat 31000)]))
       | NewsApiEverything _ _ _ =>
           Body (Some (JDict [("articles",
                  JList [JDict [("title", JStr "Bitcoin rallies");
                                ("source", JDict [("name", JStr "Wire")]);
                                ("url", JStr ("https://example.org/a" ++ nl))]])]))
       | _ => NoReply
       end;
     history := fun _ => [ {| Frame.timestamp := a_day_before; Frame.price := 30000 |} ];
     NEWS_API_KEY := Some "k1";
     GNEWS_API_KEY := None;
     send_message_error := fun _ => None;
     chart_renders := true;
     send_photo_error := None |}.

(** The text the news lookup returns in that world. *)
Definition feed_news : string :=
  join nl [ "📰 *Noticias relevantes:*";
            "• Bitcoin rallies (Wire)";
            "  https://example.org/a";
            "" ].

Lemma trailing_feed_news :
  run (News.get_news_for_symbol (fun _ => "") "BTC" 3) trailing_feed
  = (Some feed_news,
     [Get (NewsApiEverything "BTC OR crypto OR cryptocurrency OR blockchain" 3 "k1")]).
Proof. vm_compute. reflexivity. Qed.


(** With an SMA20 that is missing the line of the SMA is left out and the
    line of the RSI stays. *)
Lemma composed_text_without_sma :
  message_of (lines "BTC" (Clock.strftime nine_o_clock) 31000 nan 55
                    (change_pct 31000 30000) News.NO_NEWS)
  = join nl
      [ "📊 *ANÁLISIS EDUCATIVO — BTC*";
        "⏱ 2025-03-10 09:00:00 (hora Colombia)";
        "💵 *Precio actual:* $31,000.00";
        "📉 RSI14: 55.00";
        "📊 Cambio respecto ayer misma hora: 3.33%";
        "📰 No hay noticias relevantes disponibles.";
        "_Este análisis es educativo, no es asesoramiento financiero._" ].
Proof. vm_compute. reflexivity. Qed.


End MessageWorlds.

(** * Further properties *)

(** ** More on the price fetch *)

Section MorePriceFacts.
Import Py Effects PriceSource.
Variable float_of_str : string -> option float.

(** The two shapes the run of the fetch can take. *)
Lemma get_coinbase_price_run (coin_id : string) (w : world) :
  let primary := Get (CoinbaseTicker (symbol_of coin_id)) in
  let secondary := Get (CoinGeckoPrice (cg_id_of coin_id)) in
  let cb := coinbase_returns float_of_str (http w (CoinbaseTicker (symbol_of coin_id))) in
  let cg := coingecko_returns float_of_str (cg_id_of coin_id)
              (http w (CoinGeckoPrice (cg_id_of coin_id))) in
  (exists p, cb p
             /\ get_coinbase_price float_of_str coin_id w [] = (Some (Some p), [primary]))
  \/ (fails cb
      /\ exists out,
           get_coinbase_price float_of_str coin_id w [] = (Some out, [primary; secondary])
           /\ forall p, out = Some p <-> cg p).
Proof.
  intros primary secondary cb cg.
  unfold get_coinbase_price, bind. fold (symbol_of coin_id).
  destruct (coinbase_attempt_run float_of_str (symbol_of coin_id) w []) as (o1 & E1 & S1).
  rewrite E1. cbn [app]. cbv beta iota.
  destruct o1 as [p1 |].
  - left. exists p1. split; [apply S1; reflexivity | reflexivity].
  - right. split.
    + intros p Hp. apply S1 in Hp. discriminate Hp.
    + destruct (coingecko_attempt_run float_of_str coin_id w [primary])
        as (o2 & E2 & S2).
      exists o2. fold primary in E2 |- *. rewrite E2. split; [reflexivity | exact S2].
Qed.

(** X1: [safe_json] turns a body that is not JSON into [{}]: the ticker then
    has no ["price"], the fetch goes on to CoinGecko, and what it returns
    is CoinGecko's answer alone. *)
Theorem non_json_ticker_falls_back (coin_id : string) (w : world) :
  http w (CoinbaseTicker (symbol_of coin_id)) = Body None ->
  exists out,
    run (get_coinbase_price float_of_str coin_id) w
    = (Some out, [Get (CoinbaseTicker (symbol_of coin_id));
                  Get (CoinGeckoPrice (cg_id_of coin_id))])
    /\ forall p, out = Some p
                 <-> coingecko_returns float_of_str (cg_id_of coin_id)
                       (http w (CoinGeckoPrice (cg_id_of coin_id))) p.
Proof.
  intros H. unfold run.
  destruct (get_coinbase_price_run coin_id w) as [(p & Hp & _) | (_ & out & E & S)].
  - exfalso. destruct Hp as (doc & v & R & C & _).
    rewrite H in R. injection R as <-. discriminate C.
  - exists out. split; [exact E | exact S].
Qed.

(** X2: the primary price comes from a JSON object only: the fetch ends after
    the Coinbase request with price [p] exactly when the body is an object
    whose ["price"] entry converts to [p].  A string or a list that merely
    contains the text passes the [in] test and fails on the subscript. *)
Theorem primary_price_needs_object (coin_id : string) (w : world) (p : float) :
  run (get_coinbase_price float_of_str coin_id) w
  = (Some (Some p), [Get (CoinbaseTicker (symbol_of coin_id))])
  <-> exists d v,
        http w (CoinbaseTicker (symbol_of coin_id)) = Body (Some (JDict d))
        /\ assoc "price" d = Some v
        /\ to_float float_of_str v = Some p.
Proof.
  unfold run. split.
  - intros H.
    destruct (get_coinbase_price_run coin_id w) as [(q & Hq & E) | (_ & out & E & _)].
    + rewrite E in H. injection H as <-.
      destruct Hq as (doc & v & R & _ & G & F).
      destruct doc as [data |]; [| discriminate G].
      destruct data; try discriminate G.
      exists d, v. auto.
    + rewrite E in H. discriminate H.
  - intros (d & v & R & A & F).
    destruct (get_coinbase_price_run coin_id w) as [(q & Hq & E) | (Fcb & _)].
    + rewrite E. destruct Hq as (doc & v' & R' & _ & G' & F').
      rewrite R in R'. injection R' as <-. cbn in G'. congruence.
    + exfalso. apply (Fcb p). exists (Some (JDict d)), v.
      repeat split; auto. cbn. rewrite A. reflexivity.
Qed.

End MorePriceFacts.

(** ** More on the news lookup *)

Section MoreNewsFacts.
Import Py Effects News.
Variable repr : json -> string.

Definition is_object (v : json) : bool :=
  match v with JDict _ => true | _ => false end.

(** A line of the digest that opens with the bullet. *)
Definition bulleted (line : string) : Prop :=
  exists rest, line = ("• " ++ rest)%string.

(** X3: an entry of the list raises exactly when it is not an object, or when
    it has a ["source"] that is not an object; a missing field does not
    raise (it reads as [None]). *)
Theorem article_line_raises (a : json) :
  article_line repr a = None
  <-> is_object a = false
      \/ exists d v, a = JDict d /\ assoc "source" d = Some v /\ is_object v = false.
Proof.
  unfold article_line, get, dict_get. split.
  - destruct a as [| b | z | f | s | l | d]; try (left; reflexivity).
    destruct (assoc "source" d) as [v |] eqn:S.
    + destruct v as [| b | z | f | s | l | d']; try discriminate;
        intros _; right; eexists; eexists; repeat split; eauto.
    + discriminate.
  - intros [H | (d & v & -> & S & H)].
    + destruct a; try reflexivity. discriminate H.
    + rewrite S. destruct v; try reflexivity. discriminate H.
Qed.

Lemma article_lines_spec (articles : list json) :
  match article_lines repr articles with
  | Some lines =>
      List.length lines = List.length articles
      /\ Forall bulleted lines
      /\ forall a, In a articles -> article_line repr a <> None
  | None => exists a, In a articles /\ article_line repr a = None
  end.
Proof.
  induction articles as [| a rest IH]; cbn [article_lines].
  - repeat split; [constructor | intros a []].
  - destruct (article_line repr a) as [line |] eqn:L.
    + destruct (article_lines repr rest) as [lines |].
      * destruct IH as (Hl & Hb & Hok). repeat split.
        -- cbn. rewrite Hl. reflexivity.
        -- constructor; [| exact Hb].
           unfold article_line in L.
           destruct (get a "title" JNull); [| discriminate].
           destruct (get a "source" (JDict [])); [| discriminate].
           destruct (get j0 "name" JNull); [| discriminate].
           destruct (get a "url" JNull); [| discriminate].
           injection L as <-. eexists. reflexivity.
        -- intros a' [<- | Ha]; [congruence | apply Hok; exact Ha].
      * destruct IH as (a' & Ha & Hn). exists a'. split; [right; exact Ha | exact Hn].
    + exists a. split; [left; reflexivity | exact L].
Qed.

(** X4: a digest built from a list of articles is empty for no article, fails
    when one of the first [max_articles] entries raises, and otherwise is
    the header followed by one bullet per entry, at most [max_articles] of
    them; entries past the cut are never looked at. *)
Theorem digest_of_articles (n : nat) (d : list (string * json)) (l : list json) :
  assoc "articles" d = Some (JList l) ->
  match digest repr n (JDict d) with
  | None => exists a, In a (firstn n l) /\ article_line repr a = None
  | Some text =>
      (firstn n l = [] /\ text = "")
      \/ exists lines,
           text = (HEADER ++ join nl lines)%string
           /\ List.length lines = List.length (firstn n l)
           /\ (1 <= List.length lines <= n)%nat
           /\ Forall bulleted lines
  end.
Proof.
  intros A. unfold digest, get, dict_get. rewrite A.
  destruct (firstn n l) as [| a rest] eqn:F.
  - left. split; reflexivity.
  - pose proof (article_lines_spec (a :: rest)) as S.
    destruct (article_lines repr (a :: rest)) as [lines |].
    + right. destruct S as (Hl & Hb & _). exists lines.
      split; [reflexivity |]. split; [exact Hl |]. split; [| exact Hb].
      rewrite Hl. split; [cbn; lia |].
      rewrite <- F. rewrite length_firstn. apply Nat.le_min_l.
    + exact S.
Qed.

(** X5: the lookup never raises and asks at most twice, NewsAPI before GNews:
    NewsAPI exactly when its key is configured, GNews exactly when its key
    is configured and NewsAPI was not asked or raised. *)
Theorem news_requests (symbol : string) (n : nat) (w : world) :
  let req1 := newsapi_request w symbol n in
  let req2 := gnews_request w symbol n in
  exists news log,
    run (get_news_for_symbol repr symbol n) w = (Some news, log)
    /\ (log = [] \/ log = [Get req1] \/ log = [Get req2] \/ log = [Get req1; Get req2])
    /\ (In (Get req1) log <-> configured (NEWS_API_KEY w) = true)
    /\ (In (Get req2) log
        <-> configured (GNEWS_API_KEY w) = true
            /\ (configured (NEWS_API_KEY w) = false \/ raises repr w req1 n)).
Proof.
  intros req1 req2.
  assert (D : forall l : list event, In (Get req1) [Get req2] -> False).
  { intros _ [H | []]. discriminate H. }
  assert (D' : In (Get req2) [Get req1] -> False).
  { intros [H | []]. discriminate H. }
  unfold run, get_news_for_symbol, bind, ask.
  fold (newsapi_request w symbol n). fold (gnews_request w symbol n).
  fold req1 req2.
  destruct (attempt_run repr (NEWS_API_KEY w) req1 n w [])
    as [[C1 E1] | [C1 (o1 & E1 & N1 & S1)]]; rewrite E1; cbv beta iota.
  - destruct (attempt_run repr (GNEWS_API_KEY w) req2 n w [])
      as [[C2 E2] | [C2 (o2 & E2 & N2 & S2)]]; rewrite E2; cbv beta iota.
    + exists NO_NEWS, []. split; [reflexivity |]. split; [auto |].
      split; split.
      * intros [].
      * congruence.
      * intros [].
      * intros [H _]. congruence.
    + exists (match o2 with Some d => d | None => NO_NEWS end), [Get req2].
      split; [destruct o2; reflexivity |]. split; [auto |].
      split; split.
      * intros H. exfalso. exact (D [] H).
      * congruence.
      * intros _. split; [exact C2 | left; exact C1].
      * intros _. left. reflexivity.
  - destruct o1 as [d1 |]; cbv beta iota.
    + exists d1, [Get req1]. split; [reflexivity |]. split; [auto |].
      split; split.
      * intros _. exact C1.
      * intros _. left. reflexivity.
      * intros H. exfalso. exact (D' H).
      * intros [_ [H | H]]; [congruence |].
        assert (Some d1 = None) by (apply N1; exact H). discriminate.
    + assert (R1 : raises repr w req1 n) by (apply N1; reflexivity).
      destruct (attempt_run repr (GNEWS_API_KEY w) req2 n w ([] ++ [Get req1]))
        as [[C2 E2] | [C2 (o2 & E2 & N2 & S2)]]; rewrite E2; cbv beta iota.
      * exists NO_NEWS, [Get req1]. split; [reflexivity |]. split; [auto |].
        split; split.
        -- intros _. exact C1.
        -- intros _. left. reflexivity.
        -- intros H. exfalso. exact (D' H).
        -- intros [H _]. congruence.
      * exists (match o2 with Some d => d | None => NO_NEWS end), [Get req1; Get req2].
        split; [destruct o2; reflexivity |]. split; [auto 6 |].
        split; split.
        -- intros _. exact C1.
        -- intros _. left. reflexivity.
        -- intros _. split; [exact C2 | right; exact R1].
        -- intros _. right. left. reflexivity.
Qed.

End MoreNewsFacts.

(** ** More on the analysis *)

Section MoreAnalysisFacts.
Import Py Effects Analysis.
Variable float_of_str : string -> option float.
Variable repr : json -> string.
Variable argsort : list Z -> list nat.
Variable window_mean : list float -> float.

Definition sent_text (label : string) (change : float) : string :=
  ("✅ " ++ label ++ " enviado, cambio " ++ Fmt.fixed2 false change ++ "%")%string.

Definition photos (log : list event) : nat :=
  List.length (filter (fun e => match e with SendPhoto => true | _ => false end) log).

(** X6: the delivery block never raises.  It hands the text over first; the
    chart follows only when the text went through and the chart rendered;
    and the line that reports success is printed exactly when no call
    raised. *)
Theorem delivery_is_best_effort (label message : string) (change : float)
  (w : world) (log : list event) :
  exists tail,
    deliver label message change w log = (Some tt, log ++ SendMessage message :: tail)
    /\ sent tail = []
    /\ (In SendPhoto tail
        <-> send_message_error w message = None /\ chart_renders w = true)
    /\ (photos tail <= 1)%nat
    /\ (In (Print (sent_text label change)) tail
        <-> send_message_error w message = None
            /\ (chart_renders w = false \/ send_photo_error w = None)).
Proof.
  unfold deliver, bind, ask, emit. fold (sent_text label change).
  assert (NE : forall e, Print ("Error enviando " ++ label ++ ": " ++ e)%string
                         <> Print (sent_text label change)).
  { intros e H. injection H as H. discriminate H. }
  destruct (send_message_error w message) as [e |].
  - eexists. rewrite <- app_assoc. split; [reflexivity |].
    split; [reflexivity |]. split; [| split; [cbn; lia |]]; split.
    + intros [H | []]. discriminate H.
    + intros [H _]. discriminate H.
    + intros [H | []]. exfalso. exact (NE e H).
    + intros [H _]. discriminate H.
  - destruct (chart_renders w).
    + destruct (send_photo_error w) as [e |];
        (eexists; rewrite <- !app_assoc; split; [reflexivity |];
         split; [reflexivity |]; split; [| split; [cbn; lia |]]; split).
      * intros _. auto.
      * intros _. left. reflexivity.
      * intros [H | [H | []]]; [discriminate H | exfalso; exact (NE e H)].
      * intros [_ [H | H]]; discriminate H.
      * intros _. auto.
      * intros _. left. reflexivity.
      * intros _. auto.
      * intros _. right. left. reflexivity.
    + eexists. rewrite <- app_assoc. split; [reflexivity |].
      split; [reflexivity |]. split; [| split; [cbn; lia |]]; split.
      * intros [H | []]. discriminate H.
      * intros [_ H]. discriminate H.
      * intros _. auto.
      * intros _. left. reflexivity.
Qed.

(** X7: when both price providers fail the analysis ends after their two
    requests with one line on the console: the history is not fetched, no
    news is looked up and nothing is sent. *)
Theorem analysis_without_price (coin_id : string) (w : world) :
  PriceSource.fails
    (PriceSource.coinbase_returns float_of_str
       (http w (CoinbaseTicker (symbol_of coin_id)))) ->
  PriceSource.fails
    (PriceSource.coingecko_returns float_of_str (cg_id_of coin_id)
       (http w (CoinGeckoPrice (cg_id_of coin_id)))) ->
  run (analyze_coin float_of_str repr argsort window_mean coin_id) w
  = (Some tt,
     [ Get (CoinbaseTicker (symbol_of coin_id));
       Get (CoinGeckoPrice (cg_id_of coin_id));
       Print (label_of coin_id ++ ": precio no disponible")%string ]).
Proof.
  intros F1 F2. unfold run, analyze_coin, bind, ask.
  destruct (get_coinbase_price_run float_of_str coin_id w)
    as [(p & Hp & _) | (_ & out & E & S)].
  - exfalso. exact (F1 p Hp).
  - rewrite E. destruct out as [p |].
    + exfalso. apply (F2 p). apply S. reflexivity.
    + reflexivity.
Qed.

(** X8: with a price but an empty history frame the analysis stops after the
    history request: the sort, the indicators and the news providers are
    never reached and nothing is sent. *)
Theorem analysis_without_history (coin_id : string) (w : world)
  (price : float) (log1 : list event) :
  PriceSource.get_coinbase_price float_of_str coin_id w [] = (Some (Some price), log1) ->
  history w coin_id = [] ->
  run (analyze_coin float_of_str repr argsort window_mean coin_id) w
  = (Some tt,
     log1 ++ [ chart_request coin_id;
               Print (label_of coin_id ++ ": historial no disponible")%string ]).
Proof.
  intros Hprice Hh. unfold run, analyze_coin, bind, ask.
  rewrite Hprice. cbv beta iota. unfold emit at 1. cbv beta iota.
  rewrite Hh. unfold emit. rewrite <- app_assoc. reflexivity.
Qed.

(** X9: with a price and a history that has rows the analysis raises.  It
    is left by the exception of the lookup right after the history request:
    nothing is printed, no news is looked up and nothing is sent, whatever
    the change and whatever the sort. *)
Theorem analysis_with_history_raises (coin_id : string) (w : world)
  (price : float) (log1 : list event) :
  PriceSource.get_coinbase_price float_of_str coin_id w [] = (Some (Some price), log1) ->
  history w coin_id <> [] ->
  run (analyze_coin float_of_str repr argsort window_mean coin_id) w
  = (None, log1 ++ [chart_request coin_id])
  /\ sent (log1 ++ [chart_request coin_id]) = [].
Proof.
  intros Hprice Hdf. split.
  - exact (analyze_coin_with_history float_of_str repr argsort window_mean
             coin_id w price log1 Hprice Hdf).
  - destruct (get_coinbase_price_run float_of_str coin_id w)
      as [(p & _ & E) | (_ & out & E & _)];
      rewrite E in Hprice; injection Hprice as _ <-; reflexivity.
Qed.

End MoreAnalysisFacts.

(** ** More on the indicators *)

Section MoreIndicatorFacts.
Import Py Indicators Analysis.
Local Open Scope float_scope.
Variable window_mean : list float -> float.

Lemma opp_nan (x : float) : is_nan (- x) = is_nan x.
Proof.
  apply eq_true_iff_eq. rewrite !is_nan_spec, opp_spec.
  destruct (Prim2SF x); simpl; split; congruence.
Qed.

(** The two columns [calc_rsi] averages, taken at one step [delta]. *)
Lemma moves_nth (series : list float) (i : nat) (u d : float) :
  nth_error (up_moves series) i = Some u ->
  nth_error (down_moves series) i = Some d ->
  exists delta,
    nth_error (diff series) i = Some delta
    /\ u = clip_lower0 delta /\ d = - clip_upper0 delta.
Proof.
  unfold up_moves, down_moves. rewrite !nth_error_map.
  destruct (nth_error (diff series) i) as [delta |]; [| discriminate].
  cbn [option_map]. intros [= <-] [= <-]. exists delta. auto.
Qed.

Lemma one_sided (delta : float) :
  is_nan delta = false ->
  (0 <=? clip_lower0 delta) = true
  /\ (0 <=? - clip_upper0 delta) = true
  /\ ((clip_lower0 delta =? 0) = true \/ (- clip_upper0 delta =? 0) = true).
Proof.
  intros N. unfold clip_lower0, clip_upper0. rewrite N. cbn [orb].
  apply is_nan_false in N.
  destruct (0 <=? delta) eqn:A; destruct (delta <=? 0) eqn:B;
    rewrite leb_spec in A, B;
    rewrite ?leb_spec, ?FloatAxioms.eqb_spec, ?opp_spec;
    replace (Prim2SF 0) with (S754_zero false) in * by reflexivity;
    destruct (Prim2SF delta) as [[|] | [|] | | [|] m e];
    try congruence; try discriminate; cbn; auto.
Qed.

(** X10: at every step a price series takes, the rise and the fall [calc_rsi]
    averages are both missing (the first step, or a step over a missing
    price) or both at least zero with one of them zero: a step is never
    counted as a rise and as a fall. *)
Theorem moves_are_one_sided (series : list float) (i : nat) (u d : float) :
  nth_error (up_moves series) i = Some u ->
  nth_error (down_moves series) i = Some d ->
  (is_nan u = true /\ is_nan d = true)
  \/ ((0 <=? u) = true /\ (0 <=? d) = true
      /\ ((u =? 0) = true \/ (d =? 0) = true)).
Proof.
  intros Hu Hd. destruct (moves_nth series i u d Hu Hd) as (delta & _ & -> & ->).
  destruct (is_nan delta) eqn:N.
  - left. unfold clip_lower0, clip_upper0. rewrite N. cbn [orb].
    rewrite opp_nan. auto.
  - right. apply one_sided. exact N.
Qed.

(** A zero mean of the rises over a positive mean of the falls: the ratio
    is a zero and the index is [100 - 100/1], zero. *)
Lemma rsi_of_zero_up (roll_up roll_down : float) :
  (roll_up =? 0) = true -> (0 <? roll_down) = true ->
  rsi_of roll_up roll_down = 0.
Proof.
  intros Hu Hd. apply eqb_zero in Hu. destruct Hu as [s Hu].
  apply ltb_zero in Hd.
  unfold rsi_of. apply Prim2SF_inj.
  rewrite sub_spec, div_spec, add_spec, div_spec, Hu.
  remember (Prim2SF 100) as hundred eqn:E100. vm_compute in E100.
  remember (Prim2SF 1) as one eqn:E1. vm_compute in E1.
  subst hundred one.
  destruct Hd as [-> | (m & e & ->)]; destruct s; reflexivity.
Qed.

(** Nothing over nothing: the ratio is [nan] and so is the index. *)
Lemma rsi_of_flat (roll_up roll_down : float) :
  (roll_up =? 0) = true -> (roll_down =? 0) = true ->
  is_nan (rsi_of roll_up roll_down) = true.
Proof.
  intros Hu Hd. apply eqb_zero in Hu, Hd.
  destruct Hu as [s Hu], Hd as [t Hd].
  unfold rsi_of. apply is_nan_spec.
  rewrite sub_spec, div_spec, add_spec, div_spec, Hu, Hd.
  destruct s, t; reflexivity.
Qed.

(** X11: where the window holds falls only (a zero mean of the rises, a
    positive mean of the falls) the index is 0, the mirror of the 100 of a
    window of rises; where the window holds no move at all (both means
    zero, a flat price) the index is [nan], so a flat market leaves the
    RSI line out of the text. *)
Theorem rsi_falls_and_flat (series : list float) (period i : nat)
  (roll_up roll_down : float) :
  nth_error (rolling_mean window_mean period (up_moves series)) i = Some roll_up ->
  nth_error (rolling_mean window_mean period (down_moves series)) i = Some roll_down ->
  (roll_up =? 0) = true ->
  ((0 <? roll_down) = true ->
   nth_error (calc_rsi window_mean series period) i = Some 0)
  /\ ((roll_down =? 0) = true ->
      exists x,
        nth_error (calc_rsi window_mean series period) i = Some x
        /\ is_nan x = true /\ rsi_line x = ""%string).
Proof.
  intros Hu Hd Zu. rewrite calc_rsi_nth, Hu, Hd. split.
  - intros Pd. rewrite (rsi_of_zero_up roll_up roll_down Zu Pd). reflexivity.
  - intros Zd. exists (rsi_of roll_up roll_down).
    pose proof (rsi_of_flat roll_up roll_down Zu Zd) as N.
    split; [reflexivity |]. split; [exact N |].
    unfold rsi_line, notna. rewrite N. reflexivity.
Qed.

Lemma last_nth_error {A : Type} (l : list A) (d : A) :
  l <> [] -> nth_error l (List.length l - 1) = Some (last l d).
Proof.
  induction l as [| a l IH]; [congruence |]. intros _.
  destruct l as [| b l]; [reflexivity |].
  cbn [List.length last] in *. replace (S (S (List.length l)) - 1)%nat
    with (S (S (List.length l) - 1)) by lia.
  cbn [nth_error]. apply IH. discriminate.
Qed.

(** A window that cannot be full has no mean. *)
Lemma rolling_mean_at_short (period i : nat) (xs : list float) :
  (i + 1 < period)%nat -> rolling_mean_at window_mean period xs i = nan.
Proof.
  intros Hi. unfold rolling_mean_at, window.
  replace (i + 1 - period)%nat with 0%nat by lia. cbn [skipn].
  assert (L : (List.length (firstn (i + 1) xs) <= i + 1)%nat)
    by apply firstn_le_length.
  destruct (Nat.eqb_spec (List.length (firstn (i + 1) xs)) period) as [E | _];
    [lia | reflexivity].
Qed.

(** X12: with fewer than 20 samples in the history the latest SMA20 is missing,
    and with fewer than 15 the latest RSI14 is (its first step has no
    previous price): the line of the indicator is then empty and the text
    is built without it. *)
Theorem short_history_has_no_indicator (prices : list float) (price : float) :
  ((List.length prices < 20)%nat ->
   sma_line price (last_of (rolling_mean window_mean 20 prices)) = ""%string)
  /\ ((List.length prices < 15)%nat ->
      rsi_line (last_of (calc_rsi window_mean prices 14)) = ""%string).
Proof.
  split; intros Hlen.
  - assert (N : is_nan (last_of (rolling_mean window_mean 20 prices)) = true).
    { unfold last_of.
      destruct (rolling_mean window_mean 20 prices) as [| a l] eqn:E;
        [reflexivity |]. rewrite <- E.
      assert (Hne : rolling_mean window_mean 20 prices <> []) by congruence.
      pose proof (last_nth_error _ nan Hne) as Hl.
      rewrite rolling_mean_length, rolling_mean_nth in Hl.
      destruct (_ <? _)%nat; [| discriminate Hl].
      injection Hl as <-. rewrite rolling_mean_at_short by lia. reflexivity. }
    unfold sma_line, notna. rewrite N. reflexivity.
  - assert (N : is_nan (last_of (calc_rsi window_mean prices 14)) = true).
    { unfold last_of.
      destruct (calc_rsi window_mean prices 14) as [| a l] eqn:E;
        [reflexivity |]. rewrite <- E.
      assert (Hne : calc_rsi window_mean prices 14 <> []) by congruence.
      pose proof (last_nth_error _ nan Hne) as Hl.
      rewrite calc_rsi_length, calc_rsi_nth in Hl.
      destruct (nth_error (rolling_mean window_mean 14 (up_moves prices)) _)
        as [u |] eqn:Eu; [| discriminate Hl].
      destruct (nth_error (rolling_mean window_mean 14 (down_moves prices)) _)
        as [d |] eqn:Ed; [| discriminate Hl].
      injection Hl as <-.
      destruct (rolling_moves_start window_mean 14 (List.length prices - 1) prices u d
                  ltac:(lia) Eu Ed)
        as [-> ->].
      reflexivity. }
    unfold rsi_line, notna. rewrite N. reflexivity.
Qed.

End MoreIndicatorFacts.

(** ** More on the loop *)

Section LogFacts.
Import Py Effects.

(** A computation only ever appends to the log it is given. *)
Definition appends {A : Type} (m : M A) : Prop :=
  forall w log, m w log = (fst (m w []), log ++ snd (m w [])).

Lemma appends_ret {A : Type} (a : A) : appends (ret a).
Proof. intros w log. cbn. rewrite app_nil_r. reflexivity. Qed.

Lemma appends_raise {A : Type} : appends (@raise A).
Proof. intros w log. cbn. rewrite app_nil_r. reflexivity. Qed.

Lemma appends_ask : appends ask.
Proof. intros w log. cbn. rewrite app_nil_r. reflexivity. Qed.

Lemma appends_emit (e : event) : appends (emit e).
Proof. intros w log. reflexivity. Qed.

Lemma appends_lift {A : Type} (o : option A) : appends (lift o).
Proof. destruct o; [apply appends_ret | apply appends_raise]. Qed.

Lemma appends_requests_get (r : request) : appends (requests_get r).
Proof. intros w log. unfold requests_get. destruct (http w r); reflexivity. Qed.

Lemma appends_bind {A B : Type} (m : M A) (k : A -> M B) :
  appends m -> (forall a, appends (k a)) -> appends (bind m k).
Proof.
  intros Hm Hk w log. unfold bind. rewrite (Hm w log).
  destruct (m w []) as [[a |] l1]; cbn [fst snd].
  - rewrite (Hk a w (log ++ l1)), (Hk a w l1). cbn [fst snd].
    rewrite app_assoc. reflexivity.
  - reflexivity.
Qed.

Lemma appends_try_except {A : Type} (body handler : M A) :
  appends body -> appends handler -> appends (try_except body handler).
Proof.
  intros Hb Hh w log. unfold try_except. rewrite (Hb w log).
  destruct (body w []) as [[a |] l1]; cbn [fst snd].
  - reflexivity.
  - rewrite (Hh w (log ++ l1)), (Hh w l1). cbn [fst snd].
    rewrite app_assoc. reflexivity.
Qed.

End LogFacts.

Ltac appends_step :=
  first
    [ apply appends_ret | apply appends_raise | apply appends_ask
    | apply appends_emit | apply appends_lift | apply appends_requests_get
    | apply appends_bind; [| intros ?]
    | apply appends_try_except
    | match goal with
      | |- appends (match ?x with _ => _ end) => destruct x
      end ].

Section MoreSchedulerFacts.
Import Py Effects Analysis Scheduler.
Variable float_of_str : string -> option float.
Variable repr : json -> string.
Variable argsort : list Z -> list nat.
Variable window_mean : list float -> float.

Lemma appends_analyze_coin (coin_id : string) :
  appends (analyze_coin float_of_str repr argsort window_mean coin_id).
Proof.
  unfold analyze_coin, PriceSource.get_coinbase_price,
    PriceSource.coinbase_attempt, PriceSource.coingecko_attempt,
    News.get_news_for_symbol, News.attempt, deliver, json_of.
  cbv zeta. repeat appends_step.
Qed.

(** What decides one analysis: whether the coin has a price and a history
    with rows. *)
Definition reaches_lookup (w : world) (coin_id : string) : Prop :=
  exists price log1,
    PriceSource.get_coinbase_price float_of_str coin_id w [] = (Some (Some price), log1)
    /\ history w coin_id <> [].

(** One analysis sends nothing, and raises exactly when it reaches the
    lookup. *)
Lemma analyze_coin_run (coin_id : string) (w : world) :
  exists r log,
    run (analyze_coin float_of_str repr argsort window_mean coin_id) w = (r, log)
    /\ sent log = []
    /\ ((r = None /\ reaches_lookup w coin_id)
        \/ (r = Some tt /\ ~ reaches_lookup w coin_id)).
Proof.
  assert (P : exists out log1,
             PriceSource.get_coinbase_price float_of_str coin_id w [] = (Some out, log1)
             /\ sent log1 = []).
  { destruct (get_coinbase_price_run float_of_str coin_id w)
      as [(p & _ & E) | (_ & out & E & _)];
      eexists; eexists; (split; [exact E | reflexivity]). }
  destruct P as (out & log1 & E & Q).
  assert (S1 : forall l, sent l = [] -> sent (log1 ++ l) = []).
  { intros l Hl. unfold sent in *. rewrite flat_map_app, Q, Hl. reflexivity. }
  destruct out as [price |].
  - destruct (history w coin_id) as [| r0 df'] eqn:Hh.
    + exists (Some tt). eexists. split; [| split].
      * unfold run, analyze_coin, bind, ask. rewrite E. cbv beta iota.
        unfold emit at 1. cbv beta iota. rewrite Hh. unfold emit.
        rewrite <- app_assoc. reflexivity.
      * apply S1. reflexivity.
      * right. split; [reflexivity |]. intros (p & l & _ & H). congruence.
    + exists None. eexists. split; [| split].
      * apply (analyze_coin_with_history float_of_str repr argsort window_mean
                 coin_id w price log1 E). rewrite Hh. discriminate.
      * apply S1. reflexivity.
      * left. split; [reflexivity |]. exists price, log1.
        split; [exact E | rewrite Hh; discriminate].
  - exists (Some tt). eexists. split; [| split].
    + unfold run, analyze_coin, bind, ask. rewrite E. reflexivity.
    + apply S1. reflexivity.
    + right. split; [reflexivity |]. intros (p & l & H & _). congruence.
Qed.

(** The analyses of a pass run in turn until one raises. *)
Lemma analyze_all_run (coins : list string) (w : world) (log0 : list event) :
  exists r log,
    analyze_all float_of_str repr argsort window_mean coins w log0 = (r, log0 ++ log)
    /\ sent log = []
    /\ ((r = None /\ exists coin_id, In coin_id coins /\ reaches_lookup w coin_id)
        \/ (r = Some tt /\ forall coin_id, In coin_id coins -> ~ reaches_lookup w coin_id)).
Proof.
  revert log0. induction coins as [| c rest IH]; intros log0.
  - exists (Some tt), []. cbn. rewrite app_nil_r.
    split; [reflexivity |]. split; [reflexivity |]. right. split; [reflexivity |].
    intros coin_id [].
  - cbn [analyze_all]. unfold bind.
    rewrite (appends_analyze_coin c w log0).
    destruct (analyze_coin_run c w) as (r & l & E & Q & D).
    unfold run in E. rewrite E. cbn [fst snd].
    destruct D as [[-> R] | [-> R]].
    + exists None, l. split; [reflexivity |]. split; [exact Q |].
      left. split; [reflexivity |]. exists c. split; [left; reflexivity | exact R].
    + destruct (IH (log0 ++ l)) as (r' & l' & E' & Q' & D').
      exists r', (l ++ l'). rewrite E', app_assoc.
      split; [reflexivity |]. split.
      * unfold sent in *. rewrite flat_map_app, Q, Q'. reflexivity.
      * destruct D' as [[-> (c' & Hin & R')] | [-> R']].
        -- left. split; [reflexivity |]. exists c'. split; [right; exact Hin | exact R'].
        -- right. split; [reflexivity |]. intros c' [<- | Hin]; [exact R | apply R', Hin].
Qed.

(** X13: one pass of the loop never hands a text to Telegram.  Outside the
    window it does nothing but compute the wait.  Inside, the first coin
    that has a price and a history with rows ends the pass with the
    exception of its lookup: the coins after it are not analysed and no
    wait is computed; the pass returns the wait, of at least sixty
    seconds, only when no coin gets that far.  (The clock of the world is
    the one value every read of a pass sees.) *)
Theorem pass_never_notifies (w : world) :
  exists r log,
    run (cycle float_of_str repr argsort window_mean) w = (r, log)
    /\ sent log = []
    /\ (active (clock w) = false -> r = Some (wait_seconds (clock w)) /\ log = [])
    /\ (r = None
        <-> active (clock w) = true
            /\ exists coin_id, In coin_id COINS /\ reaches_lookup w coin_id)
    /\ (forall s, r = Some s ->
        s = wait_seconds (clock w) /\ (60 <=? s)%float = true).
Proof.
  unfold run, cycle, bind, ask.
  destruct (active (clock w)).
  - destruct (analyze_all_run COINS w []) as (r & log & E & Q & D).
    rewrite E. cbn [app].
    destruct D as [[-> R] | [-> R]].
    + exists None, log. split; [reflexivity |]. split; [exact Q |].
      split; [discriminate |]. split; [| discriminate].
      split; [intros _; split; [reflexivity | exact R] | reflexivity].
    + unfold ret. eexists. exists log. split; [reflexivity |]. split; [exact Q |].
      split; [discriminate |]. split.
      * split; [discriminate |]. intros [_ (c & Hin & Hc)]. exfalso. exact (R c Hin Hc).
      * intros s [= <-]. split; [reflexivity | apply max60_floor].
  - unfold ret. eexists. exists []. split; [reflexivity |]. split; [reflexivity |].
    split; [auto |]. split.
    + split; [discriminate | intros [H _]; discriminate H].
    + intros s [= <-]. split; [reflexivity | apply max60_floor].
Qed.

(** X14: the window is read off the hour and the minute alone: on a valid
    clock a pass analyses exactly from 06:00:00 until the last microsecond
    of 21:30, that is, before 21:31:00. *)
Theorem active_window (now : Clock.datetime) :
  Clock.valid now ->
  (active now = true
   <-> (21600000000 <= Clock.micros_of_day now < 77460000000)%Z).
Proof.
  intros (_ & _ & _ & Hh & Hm & Hs & Hu).
  unfold active, Clock.micros_of_day.
  rewrite orb_true_iff, !andb_true_iff, !Z.leb_le, Z.ltb_lt, Z.eqb_eq.
  lia.
Qed.

End MoreSchedulerFacts.

(** ** The order book *)

Section OrderBookFacts.
Import Py Effects OrderBook.
Variable float_of_str : string -> option float.
Variable book : string -> reply.

(** One side of a book read in full: its best level gives a price and a
    quantity. *)
Definition side_reads (d : list (string * json)) (side : string) (p q : float) : Prop :=
  exists levels best v1 v2,
    assoc side d = Some levels
    /\ item levels 0 = Some best
    /\ item best 0 = Some v1 /\ to_float float_of_str v1 = Some p
    /\ item best 1 = Some v2 /\ to_float float_of_str v2 = Some q.

Lemma entry_spec (data : json) (side : string) (i : nat) (x : float) :
  entry float_of_str data side i = Some x
  <-> exists d levels best v,
        data = JDict d /\ assoc side d = Some levels
        /\ item levels 0 = Some best /\ item best i = Some v
        /\ to_float float_of_str v = Some x.
Proof.
  unfold entry, getitem. split.
  - destruct data; try discriminate.
    destruct (assoc side d) as [levels |] eqn:A; [| discriminate].
    destruct (item levels 0) as [best |] eqn:I; [| discriminate].
    destruct (item best i) as [v |] eqn:J; [| discriminate].
    intros H. exists d, levels, best, v. repeat split; auto.
  - intros (d & levels & best & v & -> & -> & -> & -> & H). exact H.
Qed.

Lemma read_book_spec (d : list (string * json)) (bp bq ap aq : float) :
  read_book float_of_str (JDict d) = Some (bp, bq, ap, aq)
  <-> side_reads d "bids" bp bq /\ side_reads d "asks" ap aq.
Proof.
  unfold read_book, side_reads. split.
  - destruct (entry float_of_str (JDict d) "bids" 0) as [x1 |] eqn:E1; [| discriminate].
    destruct (entry float_of_str (JDict d) "bids" 1) as [x2 |] eqn:E2; [| discriminate].
    destruct (entry float_of_str (JDict d) "asks" 0) as [x3 |] eqn:E3; [| discriminate].
    destruct (entry float_of_str (JDict d) "asks" 1) as [x4 |] eqn:E4; [| discriminate].
    intros [= -> -> -> ->].
    apply entry_spec in E1, E2, E3, E4.
    destruct E1 as (d1 & l1 & b1 & v1 & [= <-] & A1 & I1 & J1 & F1).
    destruct E2 as (d2 & l2 & b2 & v2 & [= <-] & A2 & I2 & J2 & F2).
    destruct E3 as (d3 & l3 & b3 & v3 & [= <-] & A3 & I3 & J3 & F3).
    destruct E4 as (d4 & l4 & b4 & v4 & [= <-] & A4 & I4 & J4 & F4).
    assert (l2 = l1) by congruence. subst l2.
    assert (b2 = b1) by congruence. subst b2.
    assert (l4 = l3) by congruence. subst l4.
    assert (b4 = b3) by congruence. subst b4.
    split; [exists l1, b1, v1, v2 | exists l3, b3, v3, v4]; auto 10.
  - intros [(l1 & b1 & v1 & v2 & A1 & I1 & J1 & F1 & J2 & F2)
            (l3 & b3 & v3 & v4 & A3 & I3 & J3 & F3 & J4 & F4)].
    unfold entry, getitem.
    rewrite A1, I1, J1, F1, J2, F2, A3, I3, J3, F3, J4, F4. reflexivity.
Qed.

(** X15: the order book is read all or nothing.  The four numbers are returned
    when the body is a JSON object whose two sides both give a price and a
    quantity at their best level; any result other than the four zeros was
    read that way; and a book with an empty side comes back as four zeros
    even when the other side is in order. *)
Theorem orderbook_all_or_nothing (coin_id : string) :
  let reply_of := book (symbol_of coin_id) in
  (forall d bp bq ap aq,
      reply_of = Body (Some (JDict d)) ->
      side_reads d "bids" bp bq -> side_reads d "asks" ap aq ->
      get_coinbase_orderbook float_of_str book coin_id = (bp, bq, ap, aq))
  /\ (forall bp bq ap aq,
         get_coinbase_orderbook float_of_str book coin_id = (bp, bq, ap, aq) ->
         (bp, bq, ap, aq) <> SEND_ORDERBOOK_FALLBACK_ZERO ->
         exists d,
           reply_of = Body (Some (JDict d))
           /\ side_reads d "bids" bp bq /\ side_reads d "asks" ap aq)
  /\ (forall d,
         reply_of = Body (Some (JDict d)) ->
         assoc "bids" d = Some (JList []) \/ assoc "asks" d = Some (JList []) ->
         get_coinbase_orderbook float_of_str book coin_id
         = SEND_ORDERBOOK_FALLBACK_ZERO).
Proof.
  intros reply_of. unfold get_coinbase_orderbook. fold (symbol_of coin_id).
  fold reply_of. split; [| split].
  - intros d bp bq ap aq -> B A. cbn [PriceSource.safe_json].
    rewrite (proj2 (read_book_spec d bp bq ap aq) (conj B A)). reflexivity.
  - intros bp bq ap aq H NZ.
    destruct reply_of as [| [data |]]; [congruence | |].
    + cbn [PriceSource.safe_json] in H.
      destruct (read_book float_of_str data) as [q |] eqn:R; [| congruence].
      subst q. destruct data; try discriminate R.
      exists d. split; [reflexivity |]. apply read_book_spec. exact R.
    + cbn in H. congruence.
  - intros d -> H. cbn [PriceSource.safe_json].
    destruct (read_book float_of_str (JDict d)) as [[[[bp bq] ap] aq] |] eqn:R;
      [| reflexivity].
    exfalso. apply read_book_spec in R.
    destruct R as [(l1 & b1 & _ & _ & A1 & I1 & _) (l3 & b3 & _ & _ & A3 & I3 & _)].
    destruct H as [H | H];
      [rewrite H in A1; injection A1 as <-; discriminate I1
      | rewrite H in A3; injection A3 as <-; discriminate I3].
Qed.

End OrderBookFacts.

(** ** The further properties at work *)

Section MoreWorlds.
Import Py Effects Analysis.
Local Open Scope string_scope.
Local Open Scope float_scope.

(** Coinbase answers with a page that is not JSON; CoinGecko answers
    [{"bitcoin": {"usd": 64000}}]. *)
Definition garbled_ticker : world :=
  world_of (fun r =>
    match r with
    | CoinbaseTicker _ => Body None
    | CoinGeckoPrice _ => Body (Some (JDict [("bitcoin", JDict [("usd", JInt 64000)])]))
    | _ => NoReply
    end).

Lemma non_json_ticker_falls_back_witness :
  exists out,
    run (PriceSource.get_coinbase_price no_parser "bitcoin") garbled_ticker
    = (Some out, [Get (CoinbaseTicker (symbol_of "bitcoin"));
                  Get (CoinGeckoPrice (cg_id_of "bitcoin"))])
    /\ forall p, out = Some p
                 <-> PriceSource.coingecko_returns no_parser (cg_id_of "bitcoin")
                       (http garbled_ticker (CoinGeckoPrice (cg_id_of "bitcoin"))) p.
Proof.
  apply (non_json_ticker_falls_back no_parser "bitcoin" garbled_ticker).
  reflexivity.
Defined.

Lemma garbled_ticker_run :
  run (PriceSource.get_coinbase_price no_parser "bitcoin") garbled_ticker
  = (Some (Some 64000), [Get (CoinbaseTicker "BTC"); Get (CoinGeckoPrice "bitcoin")]).
Proof. reflexivity. Qed.

(** Four articles, the fourth not an object: with a cut at three it is
    never looked at. *)
Definition article (title : string) : json :=
  JDict [("title", JStr title); ("source", JDict [("name", JStr "Wire")]);
         ("url", JStr "https://example.org/a")].

Definition four_articles : list json :=
  [article "One"; article "Two"; article "Three"; JNull].

Lemma digest_of_articles_witness :
  match News.digest (fun _ => "") 3 (JDict [("articles", JList four_articles)]) with
  | None =>
      exists a, In a (firstn 3 four_articles)
                /\ News.article_line (fun _ => "") a = None
  | Some text =>
      (firstn 3 four_articles = [] /\ text = "")
      \/ exists lines,
           text = (News.HEADER ++ join nl lines)%string
           /\ List.length lines = List.length (firstn 3 four_articles)
           /\ (1 <= List.length lines <= 3)%nat
           /\ Forall bulleted lines
  end.
Proof.
  apply (digest_of_articles (fun _ => "") 3
           [("articles", JList four_articles)] four_articles).
  reflexivity.
Defined.

Lemma four_articles_digest :
  News.digest (fun _ => "") 3 (JDict [("articles", JList four_articles)])
  = Some (join nl [ "📰 *Noticias relevantes:*";
                    "• One (Wire)"; "  https://example.org/a";
                    "• Two (Wire)"; "  https://example.org/a";
                    "• Three (Wire)"; "  https://example.org/a" ])
  /\ News.digest (fun _ => "") 4 (JDict [("articles", JList four_articles)]) = None.
Proof. split; reflexivity. Qed.

(** Nobody answers. *)
Definition silence : world := world_of (fun _ => NoReply).

Lemma no_reply_fails (returns : reply -> float -> Prop) :
  (forall p, returns NoReply p -> False) -> PriceSource.fails (returns NoReply).
Proof. intros H p. exact (H p). Qed.

Lemma analysis_without_price_witness :
  run (analyze "bitcoin") silence
  = (Some tt,
     [ Get (CoinbaseTicker (symbol_of "bitcoin"));
       Get (CoinGeckoPrice (cg_id_of "bitcoin"));
       Print (label_of "bitcoin" ++ ": precio no disponible")%string ]).
Proof.
  apply (analysis_without_price no_parser (fun _ => "") given_order
           Indicators.naive_mean "bitcoin" silence).
  - intros p (doc & v & H & _). discriminate H.
  - intros p (r2 & e & u & H & _). discriminate H.
Defined.

Lemma analysis_without_history_witness :
  run (analyze "bitcoin") negative_ticker
  = (Some tt,
     [Get (CoinbaseTicker "BTC")]
       ++ [ chart_request "bitcoin";
            Print (label_of "bitcoin" ++ ": historial no disponible")%string ])%list.
Proof.
  apply (analysis_without_history no_parser (fun _ => "") given_order
           Indicators.naive_mean "bitcoin" negative_ticker (-1)
           [Get (CoinbaseTicker "BTC")]).
  - reflexivity.
  - reflexivity.
Defined.

Lemma analysis_with_history_raises_witness :
  run (analyze "bitcoin") (quoted 31000 30000)
  = (None, [Get (CoinbaseTicker "BTC")] ++ [chart_request "bitcoin"])%list
  /\ sent ([Get (CoinbaseTicker "BTC")] ++ [chart_request "bitcoin"])%list = [].
Proof.
  apply (analysis_with_history_raises no_parser (fun _ => "") given_order
           Indicators.naive_mean "bitcoin" (quoted 31000 30000) 31000
           [Get (CoinbaseTicker "BTC")]).
  - reflexivity.
  - discriminate.
Defined.

Lemma moves_are_one_sided_witness :
  (is_nan 1 = true /\ is_nan (- 0) = true)
  \/ ((0 <=? 1) = true /\ (0 <=? - 0) = true
      /\ ((1 =? 0) = true \/ (- 0 =? 0) = true)).
Proof.
  apply (moves_are_one_sided [1; 2] 1 1 (- 0)); vm_compute; reflexivity.
Defined.

(** Sixteen falling prices: from the fifteenth on every window of fourteen
    steps holds falls only. *)
Definition falling : list float := rev rising.

Lemma falling_rsi :
  Indicators.calc_rsi Indicators.naive_mean falling 14
  = [nan; nan; nan; nan; nan; nan; nan; nan; nan; nan; nan; nan; nan; nan; 0; 0].
Proof. vm_compute. reflexivity. Qed.

Lemma rsi_falls_and_flat_witness :
  ((0 <? 1) = true ->
   nth_error (Indicators.calc_rsi Indicators.naive_mean falling 14) 14 = Some 0)
  /\ ((1 =? 0) = true ->
      exists x,
        nth_error (Indicators.calc_rsi Indicators.naive_mean falling 14) 14 = Some x
        /\ is_nan x = true /\ rsi_line x = "").
Proof.
  apply (rsi_falls_and_flat Indicators.naive_mean falling 14 14 0 1);
    vm_compute; reflexivity.
Defined.

(** A flat price: no rise and no fall in any window. *)
Definition flat : list float := repeat 5 16.

Lemma flat_rsi :
  map is_nan (Indicators.calc_rsi Indicators.naive_mean flat 14) = repeat true 16.
Proof. vm_compute. reflexivity. Qed.

Lemma short_history_has_no_indicator_witness :
  sma_line 31000 (last_of (Indicators.rolling_mean Indicators.naive_mean 20 [1; 2; 3]))
  = ""
  /\ rsi_line (last_of (Indicators.calc_rsi Indicators.naive_mean [1; 2; 3] 14)) = "".
Proof.
  destruct (short_history_has_no_indicator Indicators.naive_mean [1; 2; 3] 31000)
    as [H1 H2].
  split; [apply H1 | apply H2]; cbn; lia.
Defined.

(** At nine the pass is left in the analysis of the first coin: its two
    requests, then the exception; the other coins are not looked at. *)
Lemma cycle_at_nine :
  run (Scheduler.cycle no_parser (fun _ => "") given_order Indicators.naive_mean)
    (quoted 31000 30000)
  = (None, [Get (CoinbaseTicker "BTC"); Get (CoinGeckoChart "bitcoin" 2)]).
Proof. vm_compute. reflexivity. Qed.

(** With no provider answering the pass runs through the three coins and
    returns the wait. *)
Lemma cycle_in_silence :
  run (Scheduler.cycle no_parser (fun _ => "") given_order Indicators.naive_mean)
    silence
  = (Some 3605,
     [ Get (CoinbaseTicker "BTC"); Get (CoinGeckoPrice "bitcoin");
       Print "BTC: precio no disponible";
       Get (CoinbaseTicker "ETH"); Get (CoinGeckoPrice "ethereum");
       Print "ETH: precio no disponible";
       Get (CoinbaseTicker "XRP"); Get (CoinGeckoPrice "ripple");
       Print "XRP: precio no disponible" ]).
Proof. vm_compute. reflexivity. Qed.

Lemma active_window_witness :
  Scheduler.active nine_o_clock = true
  <-> (21600000000 <= Clock.micros_of_day nine_o_clock < 77460000000)%Z.
Proof.
  apply (active_window nine_o_clock). vm_compute. intuition discriminate.
Defined.

(** A level-1 book as Coinbase sends it: prices and sizes as strings, then
    the number of orders. *)
Definition decimal_parser (s : string) : option float :=
  if String.eqb s "64000.5" then Some 64000.5
  else if String.eqb s "64001" then Some 64001
  else if String.eqb s "0.25" then Some 0.25
  else if String.eqb s "2" then Some 2
  else None.

Definition level1_book (symbol : string) : reply :=
  Body (Some (JDict [ ("bids", JList [JList [JStr "64000.5"; JStr "0.25"; JInt 3]]);
                      ("asks", JList [JList [JStr "64001"; JStr "2"; JInt 1]]) ])).

Definition no_bids (symbol : string) : reply :=
  Body (Some (JDict [ ("bids", JList []);
                      ("asks", JList [JList [JStr "64001"; JStr "2"; JInt 1]]) ])).

Lemma orderbook_all_or_nothing_witness :
  OrderBook.get_coinbase_orderbook decimal_parser level1_book "bitcoin"
  = (64000.5, 0.25, 64001, 2)
  /\ OrderBook.get_coinbase_orderbook decimal_parser no_bids "bitcoin"
     = OrderBook.SEND_ORDERBOOK_FALLBACK_ZERO.
Proof.
  split.
  - apply (proj1 (orderbook_all_or_nothing decimal_parser level1_book "bitcoin")
             [ ("bids", JList [JList [JStr "64000.5"; JStr "0.25"; JInt 3]]);
               ("asks", JList [JList [JStr "64001"; JStr "2"; JInt 1]]) ]).
    + reflexivity.
    + exists (JList [JList [JStr "64000.5"; JStr "0.25"; JInt 3]]),
        (JList [JStr "64000.5"; JStr "0.25"; JInt 3]), (JStr "64000.5"), (JStr "0.25").
      repeat split; reflexivity.
    + exists (JList [JList [JStr "64001"; JStr "2"; JInt 1]]),
        (JList [JStr "64001"; JStr "2"; JInt 1]), (JStr "64001"), (JStr "2").
      repeat split; reflexivity.
  - apply (proj2 (proj2 (orderbook_all_or_nothing decimal_parser no_bids "bitcoin"))
             [ ("bids", JList []);
               ("asks", JList [JList [JStr "64001"; JStr "2"; JInt 1]]) ]).
    + reflexivity.
    + left. reflexivity.
Defined.

(** A str is indexed by character: a side given as a str of digits is read
    digit by digit, and a character of several bytes is one entry. *)
Lemma characters_example :
  OrderBook.characters "a•b" = ["a"; "•"; "b"]
  /\ OrderBook.item (JStr "12") 1 = Some (JStr "2")
  /\ OrderBook.item (JStr "12") 2 = None.
Proof. repeat split; reflexivity. Qed.

End MoreWorlds.
